(** * WebauthzExpress: the per-request authorization middleware of
    sdk-resource-express-node-js (src/main.js), embedded in Rocq.

    JavaScript strings are modelled as [string]: a sequence of code units in
    the range 0..255 (the range in which Node delivers header values).
    JavaScript values are the inductive [value], plain data without BigInt,
    functions or cycles, on which [JSON.stringify] returns; the calls the
    middleware
    makes on its collaborators (the logger, the token plugin, the Express
    response and [next]) are recorded as a trace of [event]s, and exceptions
    are the [Throw] completion of a small writer-and-error monad.

    The collaborators are taken at their interface: the logger's methods
    return and [plugin.checkToken] resolves to a value or fails.  A request
    records whether it already has a [webauthz] property of its own, since
    the middleware defines one that cannot be redefined. *)

From Stdlib Require Import String Ascii List Bool ZArith NArith QArith Lia.
Import ListNotations.

Open Scope string_scope.
Open Scope list_scope.

(** ** JavaScript strings *)

Module JsString.

Definition code (c : ascii) : N := N_of_ascii c.

(** [String.prototype.toLowerCase] on code units 0..255: A-Z and the
    letters U+00C0..U+00DE (U+00D7, the multiplication sign, is not a
    letter) move up by 32; every other code unit is unchanged. *)
Definition lower_ascii (c : ascii) : ascii :=
  let n := code c in
  if ((65 <=? n) && (n <=? 90))%N
     || ((192 <=? n) && (n <=? 222) && negb (n =? 215))%N
  then ascii_of_N (n + 32)
  else c.

Fixpoint toLowerCase (s : string) : string :=
  match s with
  | EmptyString => EmptyString
  | String c s' => String (lower_ascii c) (toLowerCase s')
  end.

(** [s.startsWith(p)] *)
Fixpoint startsWith (s p : string) {struct p} : bool :=
  match p with
  | EmptyString => true
  | String b p' =>
      match s with
      | EmptyString => false
      | String a s' => Ascii.eqb a b && startsWith s' p'
      end
  end.

(** [s.substr(start)]: the code units from index [start] to the end. *)
Fixpoint substr (s : string) (start : nat) : string :=
  match start, s with
  | O, _ => s
  | S n, EmptyString => EmptyString
  | S n, String _ s' => substr s' n
  end.

(** White space and line terminators removed by [trim], in 0..255:
    TAB, LF, VT, FF, CR, SPACE and NBSP. *)
Definition is_white (c : ascii) : bool :=
  let n := code c in
  ((9 <=? n) && (n <=? 13) || (n =? 32) || (n =? 160))%N.

Fixpoint trimStart (s : string) : string :=
  match s with
  | EmptyString => EmptyString
  | String c s' => if is_white c then trimStart s' else s
  end.

Fixpoint trimEnd (s : string) : string :=
  match s with
  | EmptyString => EmptyString
  | String c s' =>
      match trimEnd s' with
      | EmptyString => if is_white c then EmptyString else String c EmptyString
      | t => String c t
      end
  end.

Definition trim (s : string) : string := trimEnd (trimStart s).

(** [s.split(sep)] for a one-character separator: never the empty
    array; the empty string splits into one empty piece. *)
Fixpoint split (s : string) (sep : ascii) : list string :=
  match s with
  | EmptyString => [EmptyString]
  | String c s' =>
      if Ascii.eqb c sep then EmptyString :: split s' sep
      else match split s' sep with
           | h :: t => String c h :: t
           | [] => [String c EmptyString]
           end
  end.

(** [arr.includes(v)] on an array of strings. *)
Definition includes (arr : list string) (v : string) : bool :=
  existsb (String.eqb v) arr.

(** [arr.every(p)] *)
Definition every {A : Type} (arr : list A) (p : A -> bool) : bool :=
  forallb p arr.

(** [arr.join(sep)] on an array of strings. *)
Fixpoint join (arr : list string) (sep : string) : string :=
  match arr with
  | [] => EmptyString
  | [x] => x
  | x :: rest => x ++ sep ++ join rest sep
  end.

(** *** encodeURIComponent *)

(** Characters left as they are: A-Z a-z 0-9 - _ . ! ~ * ' ( ) *)
Definition unreserved (c : ascii) : bool :=
  let n := code c in
  (((65 <=? n) && (n <=? 90)) || ((97 <=? n) && (n <=? 122))
   || ((48 <=? n) && (n <=? 57))
   || (n =? 45) || (n =? 95) || (n =? 46) || (n =? 33) || (n =? 126)
   || (n =? 42) || (n =? 39) || (n =? 40) || (n =? 41))%N.

Definition hex_digit (n : N) : ascii :=
  if (n <? 10)%N then ascii_of_N (48 + n) else ascii_of_N (55 + n).

(** One octet as [%XX], upper-case hexadecimal. *)
Definition percent (octet : N) : string :=
  String "%" (String (hex_digit (octet / 16))
             (String (hex_digit (octet mod 16)) EmptyString)).

(** The UTF-8 octets of a code point below 256, each escaped. *)
Definition encode_char (c : ascii) : string :=
  let n := code c in
  if unreserved c then String c EmptyString
  else if (n <? 128)%N then percent n
  else percent (192 + n / 64) ++ percent (128 + n mod 64).

Fixpoint encodeURIComponent (s : string) : string :=
  match s with
  | EmptyString => EmptyString
  | String c s' => encode_char c ++ encodeURIComponent s'
  end.

End JsString.

Import JsString.

(** ** JavaScript values *)

(** A JavaScript number: NaN, the two infinities, or a finite value (every
    finite double is a rational). *)
Inductive number : Type :=
| NaN
| Infinity (negative : bool)
| Finite (q : Q).

#[warnings="-register-all"]
Inductive value : Type :=
| VUndefined
| VNull
| VBoolean (b : bool)
| VNumber (n : number)
| VString (s : string)
| VArray (items : list value)
| VObject (properties : list (string * value)).

Definition Qltb (x y : Q) : bool :=
  match Qcompare x y with Lt => true | _ => false end.

(** [a > n] where [a] is an integer (the value of [Date.now()]). *)
Definition int_gt (a : Z) (n : number) : bool :=
  match n with
  | NaN => false
  | Infinity negative => negative
  | Finite q => Qltb q (inject_Z a)
  end.

(** ToBoolean: the falsy values are undefined, null, false, 0, NaN and
    the empty string. *)
Definition ToBoolean (v : value) : bool :=
  match v with
  | VUndefined | VNull => false
  | VBoolean b => b
  | VNumber NaN => false
  | VNumber (Infinity _) => true
  | VNumber (Finite q) => negb (Qeq_bool q 0)
  | VString s => negb (String.eqb s EmptyString)
  | VArray _ | VObject _ => true
  end.

Definition typeof_string (v : value) : bool :=
  match v with VString _ => true | _ => false end.

Fixpoint lookup (properties : list (string * value)) (key : string) : value :=
  match properties with
  | [] => VUndefined
  | (k, v) :: rest => if String.eqb k key then v else lookup rest key
  end.

Definition TypeError (message : string) : value :=
  VObject [("name", VString "TypeError"); ("message", VString message)].

Definition Error (message : string) : value :=
  VObject [("name", VString "Error"); ("message", VString message)].

(** ** Effects: completions and the trace of calls on collaborators *)

Inductive completion (A : Type) : Type :=
| Normal (a : A)
| Throw (exception : value).
Arguments Normal {A} a.
Arguments Throw {A} exception.

Inductive level : Type := LTrace | LInfo | LWarn | LError.

Inductive event : Type :=
| Log (lvl : level) (message : string) (rest : list value)
| CheckToken (tokenInput : string)
| ResStatus (code : Z)
| ResSet (field val : string)
| ResEnd
| ResJson (data : value)
| ResSend (data : value)
| Next.

(** A computation yields a completion and the events it emitted, oldest
    first. *)
Definition M (A : Type) : Type := (completion A * list event)%type.

Definition ret {A : Type} (a : A) : M A := (Normal a, []).

Definition throw {A : Type} (e : value) : M A := (Throw e, []).

Definition bind {A B : Type} (m : M A) (f : A -> M B) : M B :=
  match m with
  | (Normal a, t) => let (r, t') := f a in (r, t ++ t')
  | (Throw e, t) => (Throw e, t)
  end.

(** [try { m } catch (err) { h err }] *)
Definition try_catch {A : Type} (m : M A) (h : value -> M A) : M A :=
  match m with
  | (Throw e, t) => let (r, t') := h e in (r, t ++ t')
  | ok => ok
  end.

Definition emit (e : event) : M unit := (Normal tt, [e]).

Declare Scope js_scope.
Delimit Scope js_scope with js.
Notation "x <- m ;; k" := (bind m (fun x => k))
  (at level 61, m at next level, right associativity) : js_scope.
Notation "m ;; k" := (bind m (fun _ => k))
  (at level 61, right associativity) : js_scope.
Open Scope js_scope.

(** [v[key]] for the property names the middleware reads: reading a
    property of undefined or null throws; primitives and arrays have none of
    these names. *)
Definition get (v : value) (key : string) : M value :=
  match v with
  | VUndefined => throw (TypeError "Cannot read properties of undefined")
  | VNull => throw (TypeError "Cannot read properties of null")
  | VObject properties => ret (lookup properties key)
  | _ => ret VUndefined
  end.

(** [v.split(sep)]: only strings have a [split] method. *)
Definition call_split (v : value) (sep : ascii) : M (list string) :=
  match v with
  | VString s => ret (split s sep)
  | VUndefined | VNull => throw (TypeError "Cannot read properties of undefined")
  | _ => throw (TypeError "split is not a function")
  end.

Fixpoint mapM {A B : Type} (f : A -> M B) (l : list A) : M (list B) :=
  match l with
  | [] => ret []
  | x :: rest => y <- f x ;; ys <- mapM f rest ;; ret (y :: ys)
  end.

(** ** The WebauthzExpress class *)

(** The token plugin: [checkToken] resolves to the token info or fails
    (a rejected promise and a thrown exception are both caught by the
    [try] around the [await]). *)
Definition Plugin : Type := string -> completion value.

Record WebauthzExpress : Type := {
  plugin : Plugin;
  realm : string;
  path : string;
  webauthz_discovery_uri : option string
}.

Definition truthy (o : option string) : bool :=
  match o with
  | Some s => negb (String.eqb s EmptyString)
  | None => false
  end.

Definition constructor (plugin : option Plugin)
    (realm path webauthz_discovery_uri : option string)
  : completion WebauthzExpress :=
  match plugin with
  | None => Throw (Error "plugin is required")
  | Some p =>
      Normal {|
        plugin := p;
        realm := match realm with
                 | Some r => if truthy realm then r else "Webauthz"
                 | None => "Webauthz"
                 end;
        path := match path with
                | Some p' => if truthy path then p' else "/"
                | None => "/"
                end;
        webauthz_discovery_uri :=
          if truthy webauthz_discovery_uri then webauthz_discovery_uri else None
      |}
  end.

(** The attributes of an own property of an object: a data property
    (its value is not recorded) or an accessor property. *)
Inductive own_property : Type :=
| DataProperty (configurable enumerable writable : bool)
| AccessorProperty (configurable enumerable : bool).

(** An Express request: its header object (names in lower case), its
    body, whether properties can be added to it, and its own [webauthz]
    property when it has one. *)
Record Request : Type := {
  headers : list (string * value);
  body : value;
  extensible : bool;
  webauthz : option own_property
}.

(** Whether [Object.defineProperty(req, 'webauthz', { value: api,
    enumerable: true, configurable: false, writable: false })] succeeds, [api]
    being an object created for this request.  A missing property is added
    to an extensible object; a configurable property is replaced; a data
    property that is not configurable is changed only when it is enumerable
    and writable; otherwise the call throws a TypeError. *)
Definition can_define (req : Request) : bool :=
  match webauthz req with
  | None => extensible req
  | Some (DataProperty configurable enumerable writable) =>
      configurable || (enumerable && writable)
  | Some (AccessorProperty configurable _) => configurable
  end.

Definition defineProperty_webauthz (req : Request) : M unit :=
  if can_define req then ret tt
  else throw (TypeError "Cannot redefine property: webauthz").

(** The request after the middleware has completed: [webauthz] is an
    enumerable data property, neither configurable nor writable. *)
Definition decorated (req : Request) : Request :=
  {| headers := headers req;
     body := body req;
     extensible := extensible req;
     webauthz := Some (DataProperty false true false) |}.

(** Express's [req.header(name)]. *)
Definition req_header (req : Request) (name : string) : value :=
  lookup (headers req) (toLowerCase name).

(** The object installed as [req.webauthz]: the seven read-only data
    properties and what its methods close over. *)
Record Api : Type := {
  api_properties : list (string * value);
  api_this : WebauthzExpress;
  api_requiredScopeList : list string;
  api_authorization : value
}.

Definition item_names : list string :=
  ["type"; "client_id"; "realm"; "scope"; "not_after"; "user_id"; "error"].

Definition call_checkToken (this : WebauthzExpress) (tokenInput : string) : M value :=
  (plugin this tokenInput, [CheckToken tokenInput]).

Section Middleware.

(** The text of [JSON.stringify(v)] interpolated into a log message. *)
Variable JSON_stringify : value -> string.

(** The value of [Date.now()], in milliseconds. *)
Variable Date_now : Z.

(** [middleware({ requiredScopeList })(req, res, next)]; the list is [[]]
    when the argument is left out.  The result is the object defined as
    [req.webauthz]; after a normal completion the request is
    [decorated req]. *)
Definition middleware (this : WebauthzExpress) (requiredScopeList : list string)
    (req : Request) : M Api :=
  emit (Log LTrace ("middleware: request headers " ++ JSON_stringify (VObject (headers req))) []) ;;
  emit (Log LTrace ("middleware: request body " ++ JSON_stringify (body req)) []) ;;
  let authorizationHeader := req_header req "Authorization" in
  emit (Log LTrace ("middleware: header value " ++ JSON_stringify authorizationHeader) []) ;;
  authorization <-
    match authorizationHeader with
    | VString header =>
        if negb (startsWith (toLowerCase header) "bearer ") then
          emit (Log LTrace "middleware: authorization header not bearer" []) ;;
          ret (VObject [("error", VString "authorization-header-not-bearer")])
        else
          let tokenInput := trim (substr header (String.length "bearer ")) in
          try_catch
            (tokenInfo <- call_checkToken this tokenInput ;;
             not_after <- get tokenInfo "not_after" ;;
             match not_after with
             | VNumber n =>
                 if int_gt Date_now n then
                   emit (Log LTrace "middleware: token expired" []) ;;
                   ret (VObject [("error", VString "token-expired")])
                 else
                   emit (Log LTrace "middleware: valid token" []) ;;
                   ret tokenInfo
             | _ =>
                 emit (Log LTrace "middleware: valid token" []) ;;
                 ret tokenInfo
             end)
            (fun err =>
               emit (Log LError "middleware: valid token" [err]) ;;
               ret (VObject [("error", VString "invalid-token")]))
    | _ =>
        emit (Log LTrace "middleware: no authorization header in request" []) ;;
        ret (VObject [("error", VString "authorization-header-not-found")])
    end ;;
  emit (Log LTrace ("middleware: authorization result: " ++ JSON_stringify authorization) []) ;;
  properties <- mapM (fun item => v <- get authorization item ;; ret (item, v)) item_names ;;
  let api := {|
    api_properties := properties;
    api_this := this;
    api_requiredScopeList := requiredScopeList;
    api_authorization := authorization
  |} in
  defineProperty_webauthz req ;;
  emit (Log LTrace "middleware: next..." []) ;;
  emit Next ;;
  ret api.

(** [scope(...requiredScopeList)] *)
Definition scope (this : WebauthzExpress) (requiredScopeList : list string)
  : M (Request -> M Api) :=
  emit (Log LTrace ("middleware: init with requiredScopeList "
                    ++ JSON_stringify (VArray (map VString requiredScopeList))) []) ;;
  ret (middleware this requiredScopeList).

End Middleware.

(** ** The methods of [req.webauthz] *)

Definition header (api : Api) : M unit :=
  let this := api_this api in
  emit (Log LTrace "middleware: header status 401" []) ;;
  emit (ResStatus 401) ;;
  match webauthz_discovery_uri this with
  | Some uri =>
      if truthy (Some uri) then
        emit (Log LTrace "middleware: header www-authenticate" []) ;;
        let scopeEncoded := encodeURIComponent (join (api_requiredScopeList api) " ") in
        let realmEncoded := encodeURIComponent (realm this) in
        let pathEncoded := encodeURIComponent (path this) in
        let webauthzDiscoveryUriEncoded := encodeURIComponent uri in
        emit (ResSet "WWW-Authenticate"
                ("Bearer realm=" ++ realmEncoded ++ ", scope=" ++ scopeEncoded
                 ++ ", webauthz_discovery_uri=" ++ webauthzDiscoveryUriEncoded
                 ++ ", path=" ++ pathEncoded))
      else ret tt
  | None => ret tt
  end.

Definition empty (api : Api) : M unit :=
  header api ;;
  emit (Log LTrace "middleware: empty" []) ;;
  emit ResEnd.

Definition json (api : Api) (data : value) : M unit :=
  header api ;;
  emit (Log LTrace "middleware: json" []) ;;
  emit (ResJson data).

Definition html (api : Api) (data : value) : M unit :=
  header api ;;
  emit (Log LTrace "middleware: html" []) ;;
  emit (ResSend data).

Definition isPermitted (api : Api) (scope : list string) : M bool :=
  let checkScopeList :=
    if (0 <? List.length scope)%nat then [] ++ scope
    else [] ++ api_requiredScopeList api in
  granted_scope <- get (api_authorization api) "scope" ;;
  if negb (ToBoolean granted_scope) then ret false
  else
    granted <- call_split granted_scope " " ;;
    ret (every checkScopeList (fun v => includes granted v)).

(** ** Notions of the specification *)

(** ASCII case folding: A-Z onto a-z, nothing else. *)
Definition fold_case (c : ascii) : ascii :=
  let n := code c in
  if ((65 <=? n) && (n <=? 90))%N then ascii_of_N (n + 32) else c.

Definition eq_ignore_case (c d : ascii) : bool :=
  Ascii.eqb (fold_case c) (fold_case d).

(** [s] starts with [p], letters compared without regard to case. *)
Fixpoint starts_with_ignore_case (s p : string) {struct p} : bool :=
  match p with
  | EmptyString => true
  | String b p' =>
      match s with
      | EmptyString => false
      | String a s' => eq_ignore_case a b && starts_with_ignore_case s' p'
      end
  end.

(** The three outcomes of credential extraction (spec 4.1). *)
Inductive extraction : Type :=
| absent
| malformed_scheme
| candidate (token : string).

(** Credential extraction as the specification words it: absent when the
    header is no string, malformed-scheme when it does not start with the
    scheme token, otherwise the header without its seven-character prefix
    and without surrounding white space. *)
Definition spec_extract (authorizationHeader : value) : extraction :=
  match authorizationHeader with
  | VString h =>
      if starts_with_ignore_case h "bearer "
      then candidate (trim (substr h 7))
      else malformed_scheme
  | _ => absent
  end.

(** The order of JavaScript numbers: NaN is below nothing and nothing is
    below NaN. *)
Definition number_lt (a b : number) : Prop :=
  match a, b with
  | NaN, _ | _, NaN => False
  | Infinity na, Infinity nb => na = true /\ nb = false
  | Infinity na, Finite _ => na = true
  | Finite _, Infinity nb => nb = false
  | Finite x, Finite y => (x < y)%Q
  end.

(** The token is expired when [not_after] is a number below the clock. *)
Definition spec_expired (now : Z) (not_after : value) : Prop :=
  match not_after with
  | VNumber n => number_lt n (Finite (inject_Z now))
  | _ => False
  end.

(** The tokens handed to [plugin.checkToken] in a trace, oldest first. *)
Fixpoint checkToken_calls (t : list event) : list string :=
  match t with
  | [] => []
  | CheckToken tokenInput :: rest => tokenInput :: checkToken_calls rest
  | _ :: rest => checkToken_calls rest
  end.

(** The response headers set in a trace, oldest first. *)
Fixpoint headers_set (t : list event) : list (string * string) :=
  match t with
  | [] => []
  | ResSet field val :: rest => (field, val) :: headers_set rest
  | _ :: rest => headers_set rest
  end.

(** The status codes set in a trace, oldest first. *)
Fixpoint statuses_set (t : list event) : list Z :=
  match t with
  | [] => []
  | ResStatus c :: rest => c :: statuses_set rest
  | _ :: rest => statuses_set rest
  end.

(** The value of a data property of a value that is neither undefined nor
    null. *)
Definition property (v : value) (key : string) : value :=
  match v with
  | VObject properties => lookup properties key
  | _ => VUndefined
  end.

Definition nullish (v : value) : bool :=
  match v with VUndefined | VNull => true | _ => false end.

(** The five authorization results, as the source builds them. *)
Definition error_result (tag : string) : value := VObject [("error", VString tag)].

(** The challenge of spec 4.4: each of the four parts percent-encoded on
    its own. *)
Definition spec_challenge (realm : string) (scopes : list string)
    (discoveryUri path : string) : string :=
  "Bearer realm=" ++ encodeURIComponent realm
  ++ ", scope=" ++ encodeURIComponent (join scopes " ")
  ++ ", webauthz_discovery_uri=" ++ encodeURIComponent discoveryUri
  ++ ", path=" ++ encodeURIComponent path.

(** The check-list of [isPermitted]: the arguments, or the bound list when
    there are none. *)
Definition check_list (bound args : list string) : list string :=
  match args with [] => bound | _ => args end.

(** ** The middleware in normal form *)

Section Outcome.

Variable JSON_stringify : value -> string.
Variable Date_now : Z.

Definition expired (not_after : value) : bool :=
  match not_after with
  | VNumber n => int_gt Date_now n
  | _ => false
  end.

(** The authorization result of a request and the events of the stage
    that computes it. *)
Definition authorize (this : WebauthzExpress) (authorizationHeader : value)
  : value * list event :=
  match spec_extract authorizationHeader with
  | absent =>
      (error_result "authorization-header-not-found",
       [Log LTrace "middleware: no authorization header in request" []])
  | malformed_scheme =>
      (error_result "authorization-header-not-bearer",
       [Log LTrace "middleware: authorization header not bearer" []])
  | candidate tokenInput =>
      match plugin this tokenInput with
      | Throw err =>
          (error_result "invalid-token",
           [CheckToken tokenInput; Log LError "middleware: valid token" [err]])
      | Normal tokenInfo =>
          match tokenInfo with
          | VUndefined =>
              (error_result "invalid-token",
               [CheckToken tokenInput;
                Log LError "middleware: valid token"
                  [TypeError "Cannot read properties of undefined"]])
          | VNull =>
              (error_result "invalid-token",
               [CheckToken tokenInput;
                Log LError "middleware: valid token"
                  [TypeError "Cannot read properties of null"]])
          | _ =>
              if expired (property tokenInfo "not_after") then
                (error_result "token-expired",
                 [CheckToken tokenInput; Log LTrace "middleware: token expired" []])
              else
                (tokenInfo,
                 [CheckToken tokenInput; Log LTrace "middleware: valid token" []])
          end
      end
  end.

Definition build_api (this : WebauthzExpress) (requiredScopeList : list string)
    (authorization : value) : Api :=
  {| api_properties := map (fun item => (item, property authorization item)) item_names;
     api_this := this;
     api_requiredScopeList := requiredScopeList;
     api_authorization := authorization |}.

Definition prologue (req : Request) : list event :=
  [Log LTrace ("middleware: request headers " ++ JSON_stringify (VObject (headers req))) [];
   Log LTrace ("middleware: request body " ++ JSON_stringify (body req)) [];
   Log LTrace ("middleware: header value "
               ++ JSON_stringify (req_header req "Authorization")) []].

Definition epilogue (authorization : value) : list event :=
  [Log LTrace ("middleware: authorization result: " ++ JSON_stringify authorization) [];
   Log LTrace "middleware: next..." [];
   Next].

End Outcome.

(** ** Sample inputs *)

Definition sample_stringify (v : value) : string := "?".

Definition resolving (tokenInfo : value) : Plugin := fun _ => Normal tokenInfo.


Definition sample_server (p : Plugin) : WebauthzExpress :=
  {| plugin := p; realm := "Webauthz"; path := "/"; webauthz_discovery_uri := None |}.

Definition sample_resource (p : Plugin) : WebauthzExpress :=
  {| plugin := p; realm := "Webauthz"; path := "/api";
     webauthz_discovery_uri := Some "https://x/d.json" |}.

Definition bearer_request (authorizationHeader : string) : Request :=
  {| headers := [("host", VString "x"); ("authorization", VString authorizationHeader)];
     body := VUndefined;
     extensible := true;
     webauthz := None |}.

Definition anonymous_request : Request :=
  {| headers := [("host", VString "x")];
     body := VUndefined;
     extensible := true;
     webauthz := None |}.

Definition sample_now : Z := 1000.

Definition sample_attributes (granted : string) (not_after : Z)
  : list (string * value) :=
  [("type", VString "access"); ("client_id", VString "c1");
   ("realm", VString "Webauthz"); ("scope", VString granted);
   ("not_after", VNumber (Finite (inject_Z not_after)));
   ("user_id", VString "u1")].

Definition sample_token (granted : string) (not_after : Z) : value :=
  VObject (sample_attributes granted not_after).

(** The discovery URI the challenge is built from: the configured one
    when it is a non-empty string. *)
Definition discovery_configured (this : WebauthzExpress) : option string :=
  if truthy (webauthz_discovery_uri this) then webauthz_discovery_uri this else None.

Fixpoint occurs (c : ascii) (s : string) : bool :=
  match s with
  | EmptyString => false
  | String a s' => Ascii.eqb a c || occurs c s'
  end.

Fixpoint all_chars (p : ascii -> bool) (s : string) : bool :=
  match s with
  | EmptyString => true
  | String a s' => p a && all_chars p s'
  end.

(** What an escaped string is made of: unreserved characters and [%]. *)
Definition escaped_char (c : ascii) : bool :=
  unreserved c || Ascii.eqb c "%".

(** A call on the Decision Context of a request. *)
Definition on_request (this : WebauthzExpress) (requiredScopeList : list string)
    (req : Request) (call : Api -> M bool) : completion bool :=
  fst (api <- middleware sample_stringify sample_now this requiredScopeList req ;;
       call api).

(** ** Observations on traces and strings *)

(** The calls on the Express response. *)
Definition is_response (e : event) : bool :=
  match e with
  | ResStatus _ | ResSet _ _ | ResEnd | ResJson _ | ResSend _ => true
  | _ => false
  end.

(** The calls that send the body and finish the response. *)
Definition is_finisher (e : event) : bool :=
  match e with
  | ResEnd | ResJson _ | ResSend _ => true
  | _ => false
  end.

Definition is_next (e : event) : bool :=
  match e with Next => true | _ => false end.

Definition starts_white (s : string) : bool :=
  match s with
  | EmptyString => false
  | String c _ => is_white c
  end.

Fixpoint ends_white (s : string) : bool :=
  match s with
  | EmptyString => false
  | String c EmptyString => is_white c
  | String _ s' => ends_white s'
  end.

Definition hex_value (c : ascii) : N :=
  let n := code c in
  if (n <? 58)%N then n - 48 else n - 55.

(** The inverse of [encodeURIComponent] on what it produces: an escape
    below 128 is one code unit, an escape from 192 on starts a two-octet
    sequence. *)
Fixpoint unescape (s : string) : string :=
  match s with
  | EmptyString => EmptyString
  | String c rest =>
      if Ascii.eqb c "%" then
        match rest with
        | String x (String y rest2) =>
            let o := (hex_value x * 16 + hex_value y)%N in
            if (o <? 128)%N then String (ascii_of_N o) (unescape rest2)
            else
              match rest2 with
              | String _ (String x2 (String y2 rest3)) =>
                  let o2 := (hex_value x2 * 16 + hex_value y2)%N in
                  String (ascii_of_N ((o - 192) * 64 + (o2 - 128))) (unescape rest3)
              | _ => EmptyString
              end
        | _ => EmptyString
        end
      else String c (unescape rest)
  end.

(** The pieces of the granted scope, when it is a string. *)
Definition granted_pieces (granted_scope : value) : list string :=
  match granted_scope with
  | VString s => split s " "
  | _ => []
  end.

(** ** The string operations on examples *)

Example toLowerCase_ex : toLowerCase "Bearer X" = "bearer x".
Proof. reflexivity. Qed.

Example trim_ex : trim (substr "Bearer   abc123  " 7) = "abc123".
Proof. reflexivity. Qed.

Example split_ex1 : split "calendar contacts" " " = ["calendar"; "contacts"].
Proof. reflexivity. Qed.

Example split_ex2 : split "a  b " " " = ["a"; ""; "b"; ""].
Proof. reflexivity. Qed.

Example split_ex3 : split "" " " = [""].
Proof. reflexivity. Qed.

Example encode_ex : encodeURIComponent "https://x/d.json" = "https%3A%2F%2Fx%2Fd.json".
Proof. reflexivity. Qed.

Example join_ex : encodeURIComponent (join ["a"; "b"] " ") = "a%20b".
Proof. reflexivity. Qed.

Example startsWith_ex : startsWith (toLowerCase "BeArEr x") "bearer " = true.
Proof. reflexivity. Qed.

(** ** Facts about the string operations *)

Lemma lower_ascii_scheme_char (c d : ascii) :
  In d ["b"; "e"; "a"; "r"; " "]%char ->
  Ascii.eqb (lower_ascii c) d = eq_ignore_case c d.
Proof.
  intros Hd. simpl in Hd.
  destruct Hd as [<- | [<- | [<- | [<- | [<- | []]]]]];
    destruct c as [[] [] [] [] [] [] [] []]; reflexivity.
Qed.

Lemma startsWith_bearer (h : string) :
  startsWith (toLowerCase h) "bearer " = starts_with_ignore_case h "bearer ".
Proof.
  do 7 (destruct h as [| ? h]; [reflexivity |]; cbn [toLowerCase startsWith starts_with_ignore_case];
        rewrite lower_ascii_scheme_char by (simpl; tauto);
        f_equal).
Qed.

Lemma split_nonempty (s : string) (sep : ascii) : split s sep <> [].
Proof.
  destruct s as [| c s]; simpl; [discriminate |].
  destruct (Ascii.eqb c sep); [discriminate |].
  destruct (split s sep); discriminate.
Qed.

Lemma join_cons (x : string) (l : list string) (sep : string) :
  l <> [] -> join (x :: l) sep = (x ++ sep ++ join l sep)%string.
Proof. destruct l; [congruence | reflexivity]. Qed.

(** Joining the pieces with the separator gives the string back. *)
Lemma join_split (s : string) (sep : ascii) :
  join (split s sep) (String sep EmptyString) = s.
Proof.
  induction s as [| c s IH]; [reflexivity |].
  simpl split. destruct (Ascii.eqb_spec c sep) as [-> | Hne].
  - rewrite join_cons by apply split_nonempty. simpl. now rewrite IH.
  - pose proof (split_nonempty s sep) as Hs.
    destruct (split s sep) as [| h t]; [congruence |].
    destruct t as [| h' t].
    + simpl in *. now rewrite IH.
    + rewrite join_cons in IH by discriminate.
      rewrite join_cons by discriminate. cbn [append] in IH |- *. now rewrite IH.
Qed.

(** No piece contains the separator. *)
Lemma split_pieces (s : string) (sep : ascii) (piece : string) :
  In piece (split s sep) -> occurs sep piece = false.
Proof.
  revert piece. induction s as [| c s IH]; intros piece Hin.
  - simpl in Hin. destruct Hin as [<- | []]. reflexivity.
  - simpl in Hin. destruct (Ascii.eqb c sep) eqn:Hc.
    + destruct Hin as [<- | Hin]; [reflexivity | now apply IH].
    + pose proof (split_nonempty s sep) as Hs.
      destruct (split s sep) as [| h t]; [congruence |].
      destruct Hin as [<- | Hin].
      * simpl. rewrite Hc. apply IH. now left.
      * apply IH. now right.
Qed.

Lemma includes_In (arr : list string) (v : string) :
  includes arr v = true <-> In v arr.
Proof.
  unfold includes. rewrite existsb_exists. split.
  - intros [x [Hx Heq]]. apply String.eqb_eq in Heq. now subst.
  - intros Hin. exists v. split; [assumption | apply String.eqb_refl].
Qed.

Lemma every_includes (checkScopeList granted : list string) :
  every checkScopeList (fun v => includes granted v) = true
  <-> Forall (fun name => In name granted) checkScopeList.
Proof.
  unfold every. rewrite forallb_forall, Forall_forall.
  split; intros H x Hx; apply includes_In; auto.
Qed.

Lemma int_gt_lt (now : Z) (n : number) :
  int_gt now n = true <-> number_lt n (Finite (inject_Z now)).
Proof.
  destruct n as [| negative | q]; simpl.
  - split; [discriminate | tauto].
  - tauto.
  - unfold Qltb. rewrite Qlt_alt.
    destruct (q ?= inject_Z now)%Q; split; congruence.
Qed.

Lemma expired_spec (now : Z) (not_after : value) :
  expired now not_after = true <-> spec_expired now not_after.
Proof.
  destruct not_after; simpl; try (split; [discriminate | tauto]).
  apply int_gt_lt.
Qed.

(** ** The middleware equals its normal form *)

Section MiddlewareFacts.

Variable JSON_stringify : value -> string.
Variable Date_now : Z.

(** The events before [req.webauthz] is defined. *)
Definition before_define (req : Request) (this : WebauthzExpress) : list event :=
  prologue JSON_stringify req
  ++ snd (authorize Date_now this (req_header req "Authorization"))
  ++ [Log LTrace ("middleware: authorization result: "
                  ++ JSON_stringify
                       (fst (authorize Date_now this (req_header req "Authorization"))))
        []].

Lemma middleware_run (this : WebauthzExpress) (requiredScopeList : list string)
    (req : Request) :
  middleware JSON_stringify Date_now this requiredScopeList req =
  if can_define req then
    (Normal (build_api this requiredScopeList
               (fst (authorize Date_now this (req_header req "Authorization")))),
     prologue JSON_stringify req
     ++ snd (authorize Date_now this (req_header req "Authorization"))
     ++ epilogue JSON_stringify
          (fst (authorize Date_now this (req_header req "Authorization"))))
  else
    (Throw (TypeError "Cannot redefine property: webauthz"), before_define req this).
Proof.
  unfold middleware, defineProperty_webauthz, before_define, authorize, spec_extract,
    prologue.
  destruct (can_define req);
    (destruct (req_header req "Authorization") as [| | b | n | h | items | properties];
     try reflexivity;
     rewrite startsWith_bearer;
     destruct (starts_with_ignore_case h "bearer "); [| reflexivity];
     change (String.length "bearer ") with 7%nat;
     unfold call_checkToken;
     destruct (plugin this (trim (substr h 7))) as [tokenInfo | err]; [| reflexivity];
     destruct tokenInfo as [| | b | n | s | items | properties]; try reflexivity;
     unfold property, expired;
     cbn [get bind ret fst snd];
     destruct (lookup properties "not_after") as [| | b | n | s | items | ps];
     try reflexivity;
     destruct (int_gt Date_now n); reflexivity).
Qed.

Lemma middleware_eq (this : WebauthzExpress) (requiredScopeList : list string)
    (req : Request) :
  can_define req = true ->
  middleware JSON_stringify Date_now this requiredScopeList req =
  (Normal (build_api this requiredScopeList
             (fst (authorize Date_now this (req_header req "Authorization")))),
   prologue JSON_stringify req
   ++ snd (authorize Date_now this (req_header req "Authorization"))
   ++ epilogue JSON_stringify
        (fst (authorize Date_now this (req_header req "Authorization")))).
Proof. intros Hd. rewrite middleware_run, Hd. reflexivity. Qed.

End MiddlewareFacts.

(** ** Facts about [req.webauthz] *)

Lemma get_property (v : value) (key : string) :
  nullish v = false -> get v key = ret (property v key).
Proof. destruct v; simpl; intros H; try discriminate; reflexivity. Qed.

Lemma check_list_eq (api : Api) (args : list string) :
  (if (0 <? List.length args)%nat then [] ++ args
   else [] ++ api_requiredScopeList api)
  = check_list (api_requiredScopeList api) args.
Proof. destruct args; reflexivity. Qed.

Lemma authorize_not_nullish (now : Z) (this : WebauthzExpress) (hv : value) :
  nullish (fst (authorize now this hv)) = false.
Proof.
  unfold authorize.
  destruct (spec_extract hv) as [| | tok]; try reflexivity.
  destruct (plugin this tok) as [tokenInfo | err]; [| reflexivity].
  destruct tokenInfo; try reflexivity;
    match goal with |- context [if ?b then _ else _] => destruct b end; reflexivity.
Qed.

Lemma isPermitted_falsy (api : Api) (args : list string) :
  nullish (api_authorization api) = false ->
  ToBoolean (property (api_authorization api) "scope") = false ->
  isPermitted api args = (Normal false, []).
Proof.
  intros Hn Hf. unfold isPermitted.
  rewrite (get_property _ _ Hn). cbn [bind ret]. rewrite Hf. reflexivity.
Qed.

Lemma isPermitted_string (api : Api) (s : string) (args : list string) :
  nullish (api_authorization api) = false ->
  property (api_authorization api) "scope" = VString s ->
  s <> EmptyString ->
  isPermitted api args =
  (Normal (every (check_list (api_requiredScopeList api) args)
             (fun v => includes (split s " ") v)), []).
Proof.
  intros Hn Hs Hne. unfold isPermitted.
  rewrite (get_property _ _ Hn), check_list_eq. cbn [bind ret]. rewrite Hs.
  apply String.eqb_neq in Hne. cbn [ToBoolean]. rewrite Hne. reflexivity.
Qed.

Lemma isPermitted_true_inv (api : Api) (args : list string) :
  fst (isPermitted api args) = Normal true ->
  exists s, property (api_authorization api) "scope" = VString s /\ s <> EmptyString.
Proof.
  unfold isPermitted.
  destruct (api_authorization api) as [| | b | n | s | items | properties];
    cbn; try discriminate.
  destruct (lookup properties "scope") as [| | b | n | s | items | ps] eqn:E;
    cbn; try discriminate.
  - destruct b; cbn; discriminate.
  - destruct n as [| negative | q]; cbn; try discriminate.
    destruct (Qeq_bool q 0); cbn; discriminate.
  - destruct (String.eqb_spec s EmptyString) as [-> | Hne]; cbn; [discriminate |].
    intros _. now exists s.
Qed.

(** A truthy scope that is not a string has no [split] method: the call
    throws. *)
Lemma isPermitted_not_a_string (api : Api) (args : list string) :
  nullish (api_authorization api) = false ->
  typeof_string (property (api_authorization api) "scope") = false ->
  ToBoolean (property (api_authorization api) "scope") = true ->
  isPermitted api args = (Throw (TypeError "split is not a function"), []).
Proof.
  intros Hn Ht Hb. unfold isPermitted.
  rewrite (get_property _ _ Hn). cbn [bind ret]. rewrite Hb.
  destruct (property (api_authorization api) "scope"); try discriminate; reflexivity.
Qed.

(** ** Scope authorization *)

(** C1, as amended: for every Decision Context whose AuthorizationResult
    carries a non-empty granted scope string, and every check-list (the
    arguments of isPermitted, or the bound RequiredScopeList when there are
    none), isPermitted returns true if and only if every name of the
    check-list is one of the pieces of the granted scope string split on
    spaces. *)
Theorem isPermitted_iff_all_granted (api : Api) (s : string) (args : list string) :
  nullish (api_authorization api) = false ->
  property (api_authorization api) "scope" = VString s ->
  s <> EmptyString ->
  exists b : bool,
    isPermitted api args = (Normal b, [])
    /\ (b = true <->
        Forall (fun name => In name (split s " "))
          (check_list (api_requiredScopeList api) args)).
Proof.
  intros Hn Hs Hne.
  eexists. split.
  - apply (isPermitted_string api s args Hn Hs Hne).
  - apply every_includes.
Qed.

Lemma isPermitted_iff_all_granted_witness :
  exists b : bool,
    isPermitted
      (build_api (sample_server (resolving (sample_token "calendar contacts" 2000)))
         ["calendar"] (sample_token "calendar contacts" 2000)) []
    = (Normal b, [])
    /\ (b = true <->
        Forall (fun name => In name (split "calendar contacts" " "))
          (check_list ["calendar"] [])).
Proof.
  apply (isPermitted_iff_all_granted
           (build_api (sample_server (resolving (sample_token "calendar contacts" 2000)))
              ["calendar"] (sample_token "calendar contacts" 2000))
           "calendar contacts" []).
  - reflexivity.
  - reflexivity.
  - discriminate.
Defined.

(** C1 as stated fails for the empty granted scope string: the token of
    this request grants scope [""], whose split on spaces is the one piece
    [""], yet isPermitted('') is false. *)
Lemma isPermitted_empty_scope_string_counterexample :
  match middleware sample_stringify sample_now
          (sample_server (resolving (VObject [("scope", VString "")])))
          [] (bearer_request "Bearer abc") with
  | (Normal api, _) =>
      property (api_authorization api) "scope" = VString ""
      /\ isPermitted api [""] = (Normal false, [])
      /\ Forall (fun name => In name (split "" " "))
           (check_list (api_requiredScopeList api) [""])
  | (Throw _, _) => False
  end.
Proof.
  cbn. repeat split. constructor; [now left | constructor].
Qed.

(** C2, as amended: with an empty bound RequiredScopeList and no
    arguments, isPermitted() returns true when the AuthorizationResult
    carries a non-empty granted scope string, and false when it carries no
    scope or an empty scope string. *)
Theorem isPermitted_nothing_required (api : Api) :
  nullish (api_authorization api) = false ->
  api_requiredScopeList api = [] ->
  (forall s, property (api_authorization api) "scope" = VString s ->
             s <> EmptyString -> isPermitted api [] = (Normal true, []))
  /\ (property (api_authorization api) "scope" = VUndefined
      \/ property (api_authorization api) "scope" = VString EmptyString ->
      isPermitted api [] = (Normal false, [])).
Proof.
  intros Hn Hr. split.
  - intros s Hs Hne.
    rewrite (isPermitted_string api s [] Hn Hs Hne), Hr. reflexivity.
  - intros H. apply isPermitted_falsy; [assumption |].
    destruct H as [-> | ->]; reflexivity.
Qed.

Lemma isPermitted_nothing_required_witness :
  (forall s,
      property (api_authorization
                  (build_api (sample_server (resolving VNull)) []
                     (error_result "authorization-header-not-found"))) "scope"
      = VString s ->
      s <> EmptyString ->
      isPermitted (build_api (sample_server (resolving VNull)) []
                     (error_result "authorization-header-not-found")) []
      = (Normal true, []))
  /\ (property (api_authorization
                  (build_api (sample_server (resolving VNull)) []
                     (error_result "authorization-header-not-found"))) "scope"
      = VUndefined
      \/ property (api_authorization
                     (build_api (sample_server (resolving VNull)) []
                        (error_result "authorization-header-not-found"))) "scope"
         = VString EmptyString ->
      isPermitted (build_api (sample_server (resolving VNull)) []
                     (error_result "authorization-header-not-found")) []
      = (Normal false, [])).
Proof.
  apply (isPermitted_nothing_required
           (build_api (sample_server (resolving VNull)) []
              (error_result "authorization-header-not-found"))).
  - reflexivity.
  - reflexivity.
Defined.

(** C2 as stated fails: a request without an Authorization header, no
    scope bound and none passed, and isPermitted() is false. *)
Lemma isPermitted_nothing_required_counterexample :
  match middleware sample_stringify sample_now (sample_server (resolving VNull))
          [] anonymous_request with
  | (Normal api, _) =>
      api_requiredScopeList api = []
      /\ isPermitted api [] = (Normal false, [])
  | (Throw _, _) => False
  end.
Proof. cbn. split; reflexivity. Qed.

(** ** The validation stage *)

Lemma lookup_map_items (f : string -> value) (names : list string) (item : string) :
  In item names -> lookup (map (fun i => (i, f i)) names) item = f item.
Proof.
  induction names as [| n names IH]; intros Hin; [destruct Hin |].
  simpl. destruct (String.eqb_spec n item) as [-> | Hne]; [reflexivity |].
  destruct Hin as [-> | Hin]; [congruence | now apply IH].
Qed.

Lemma authorize_resolved (now : Z) (this : WebauthzExpress) (hv : value)
    (tok : string) (tokenInfo : value) :
  spec_extract hv = candidate tok ->
  plugin this tok = Normal tokenInfo ->
  nullish tokenInfo = false ->
  authorize now this hv =
  if expired now (property tokenInfo "not_after")
  then (error_result "token-expired",
        [CheckToken tok; Log LTrace "middleware: token expired" []])
  else (tokenInfo, [CheckToken tok; Log LTrace "middleware: valid token" []]).
Proof.
  intros He Hp Hn. unfold authorize. rewrite He, Hp.
  destruct tokenInfo; try discriminate; reflexivity.
Qed.


Lemma authorize_absent (now : Z) (this : WebauthzExpress) (hv : value) :
  spec_extract hv = absent ->
  authorize now this hv =
  (error_result "authorization-header-not-found",
   [Log LTrace "middleware: no authorization header in request" []]).
Proof. intros He. unfold authorize. now rewrite He. Qed.

Lemma authorize_calls (now : Z) (this : WebauthzExpress) (hv : value) :
  checkToken_calls (snd (authorize now this hv)) =
  match spec_extract hv with
  | candidate tok => [tok]
  | _ => []
  end.
Proof.
  unfold authorize.
  destruct (spec_extract hv) as [| | tok]; try reflexivity.
  destruct (plugin this tok) as [tokenInfo | err]; [| reflexivity].
  destruct tokenInfo; try reflexivity;
    match goal with |- context [if ?b then _ else _] => destruct b end; reflexivity.
Qed.

Lemma authorize_quiet (now : Z) (this : WebauthzExpress) (hv : value) :
  filter is_response (snd (authorize now this hv)) = []
  /\ filter is_next (snd (authorize now this hv)) = [].
Proof.
  unfold authorize.
  destruct (spec_extract hv) as [| | tok]; try (split; reflexivity).
  destruct (plugin this tok) as [tokenInfo | err]; [| split; reflexivity].
  destruct tokenInfo; try (split; reflexivity);
    match goal with |- context [if ?b then _ else _] => destruct b end;
    split; reflexivity.
Qed.

Lemma checkToken_calls_app (t1 t2 : list event) :
  checkToken_calls (t1 ++ t2) = checkToken_calls t1 ++ checkToken_calls t2.
Proof.
  induction t1 as [| e t1 IH]; [reflexivity |].
  destruct e; simpl; rewrite IH; reflexivity.
Qed.

Section Claims.

Variable JSON_stringify : value -> string.
Variable Date_now : Z.

Lemma middleware_calls (this : WebauthzExpress) (requiredScopeList : list string)
    (req : Request) :
  checkToken_calls (snd (middleware JSON_stringify Date_now this requiredScopeList req))
  = match spec_extract (req_header req "Authorization") with
    | candidate tok => [tok]
    | _ => []
    end.
Proof.
  rewrite middleware_run.
  destruct (can_define req); cbn [snd]; unfold before_define;
    rewrite !checkToken_calls_app, authorize_calls;
    cbn [prologue epilogue checkToken_calls app]; apply app_nil_r.
Qed.

(** C3: on a request on which [req.webauthz] can be defined, when the
    validator succeeds with a [not_after] that is a number strictly below the
    current time, the result is the expired one (error
    tag 'token-expired') and isPermitted is false for every check-list,
    whatever scopes the token carries; when [not_after] is absent, not a
    number, or not strictly below the current time, the result is the
    token info itself with all its attributes. *)
Theorem expiry_enforced (this : WebauthzExpress) (requiredScopeList : list string)
    (req : Request) (tok : string) (attributes : list (string * value)) :
  spec_extract (req_header req "Authorization") = candidate tok ->
  plugin this tok = Normal (VObject attributes) ->
  can_define req = true ->
  exists api t,
    middleware JSON_stringify Date_now this requiredScopeList req = (Normal api, t)
    /\ (spec_expired Date_now (lookup attributes "not_after") ->
        api_authorization api = error_result "token-expired"
        /\ lookup (api_properties api) "error" = VString "token-expired"
        /\ In (Log LTrace "middleware: token expired" []) t
        /\ forall args, isPermitted api args = (Normal false, []))
    /\ (~ spec_expired Date_now (lookup attributes "not_after") ->
        api_authorization api = VObject attributes
        /\ In (Log LTrace "middleware: valid token" []) t
        /\ forall item, In item item_names ->
                        lookup (api_properties api) item = lookup attributes item).
Proof.
  intros He Hp Hd. rewrite (middleware_eq JSON_stringify Date_now _ _ _ Hd).
  rewrite (authorize_resolved Date_now this _ tok (VObject attributes) He Hp eq_refl).
  cbn [property].
  destruct (expired Date_now (lookup attributes "not_after")) eqn:Hx;
    cbn [fst snd]; do 2 eexists; (split; [reflexivity |]); split.
  - intros _. split; [reflexivity |]. split; [reflexivity |]. split.
    + apply in_or_app. right. simpl. auto.
    + intros args. apply isPermitted_falsy; reflexivity.
  - intros Hn. exfalso. apply Hn. now apply expired_spec.
  - intros Hs. apply expired_spec in Hs. congruence.
  - intros _. split; [reflexivity |]. split.
    + apply in_or_app. right. simpl. auto.
    + intros item Hin.
      apply (lookup_map_items (property (VObject attributes)) item_names item Hin).
Qed.


(** C9: when the validator succeeds but the token is expired, the
    Decision Context (of a request on which [req.webauthz] can be defined)
    exposes error = 'token-expired' and type, client_id,
    realm, scope, not_after and user_id are all undefined. *)
Theorem expired_attributes_discarded (this : WebauthzExpress)
    (requiredScopeList : list string) (req : Request) (tok : string)
    (tokenInfo : value) :
  spec_extract (req_header req "Authorization") = candidate tok ->
  plugin this tok = Normal tokenInfo ->
  spec_expired Date_now (property tokenInfo "not_after") ->
  can_define req = true ->
  exists api t,
    middleware JSON_stringify Date_now this requiredScopeList req = (Normal api, t)
    /\ api_properties api =
       [("type", VUndefined); ("client_id", VUndefined); ("realm", VUndefined);
        ("scope", VUndefined); ("not_after", VUndefined); ("user_id", VUndefined);
        ("error", VString "token-expired")].
Proof.
  intros He Hp Hx Hd. rewrite (middleware_eq JSON_stringify Date_now _ _ _ Hd).
  assert (Hn : nullish tokenInfo = false)
    by (destruct tokenInfo; simpl in Hx; try contradiction; reflexivity).
  rewrite (authorize_resolved Date_now this _ tok tokenInfo He Hp Hn).
  apply expired_spec in Hx. rewrite Hx. cbn [fst snd].
  do 2 eexists. split; reflexivity.
Qed.

(** C7: a request without an Authorization header, on which
    [req.webauthz] can be defined, gets the absent result:
    error = 'authorization-header-not-found', no scope and no identity
    attribute, and isPermitted is false for every check-list. *)
Theorem no_header_is_absent (this : WebauthzExpress)
    (requiredScopeList : list string) (req : Request) :
  req_header req "Authorization" = VUndefined ->
  can_define req = true ->
  exists api t,
    middleware JSON_stringify Date_now this requiredScopeList req = (Normal api, t)
    /\ api_authorization api = error_result "authorization-header-not-found"
    /\ api_properties api =
       [("type", VUndefined); ("client_id", VUndefined); ("realm", VUndefined);
        ("scope", VUndefined); ("not_after", VUndefined); ("user_id", VUndefined);
        ("error", VString "authorization-header-not-found")]
    /\ checkToken_calls t = []
    /\ forall args, isPermitted api args = (Normal false, []).
Proof.
  intros Hh Hd.
  pose proof (middleware_calls this requiredScopeList req) as Hc.
  rewrite (middleware_eq JSON_stringify Date_now _ _ _ Hd) in Hc |- *. rewrite Hh in Hc |- *.
  rewrite (authorize_absent Date_now this VUndefined eq_refl) in Hc |- *.
  cbn [fst snd] in Hc |- *.
  do 2 eexists. split; [reflexivity |]. split; [reflexivity |].
  split; [reflexivity |]. split.
  - exact Hc.
  - intros args. apply isPermitted_falsy; reflexivity.
Qed.

(** C6: credential extraction has exactly three outcomes.  A header that
    is absent or not a string gives the absent result; a string that does
    not start, case-insensitively, with "bearer " gives the malformed-scheme
    result; otherwise the header without its seven-character prefix and
    without surrounding white space is the token passed to the validator,
    so "Bearer   abc123  " passes exactly "abc123".  The classification and
    the call on the validator are the same on every request; the result is
    exposed when [req.webauthz] can be defined. *)
Theorem extraction_classifies (this : WebauthzExpress)
    (requiredScopeList : list string) (req : Request) :
  (let t := snd (middleware JSON_stringify Date_now this requiredScopeList req) in
   match spec_extract (req_header req "Authorization") with
   | absent =>
       In (Log LTrace "middleware: no authorization header in request" []) t
       /\ checkToken_calls t = []
   | malformed_scheme =>
       In (Log LTrace "middleware: authorization header not bearer" []) t
       /\ checkToken_calls t = []
   | candidate tok => checkToken_calls t = [tok]
   end)
  /\ (can_define req = true ->
      exists api t,
        middleware JSON_stringify Date_now this requiredScopeList req = (Normal api, t)
        /\ match spec_extract (req_header req "Authorization") with
           | absent =>
               api_authorization api = error_result "authorization-header-not-found"
               /\ checkToken_calls t = []
           | malformed_scheme =>
               api_authorization api = error_result "authorization-header-not-bearer"
               /\ checkToken_calls t = []
           | candidate tok => checkToken_calls t = [tok]
           end)
  /\ checkToken_calls
       (snd (middleware JSON_stringify Date_now this requiredScopeList
               (bearer_request "Bearer   abc123  ")))
     = ["abc123"].
Proof.
  split; [| split].
  - cbv zeta.
    pose proof (middleware_calls this requiredScopeList req) as Hc.
    rewrite middleware_run in Hc |- *.
    unfold before_define, authorize in *.
    destruct (can_define req);
      destruct (spec_extract (req_header req "Authorization")) as [| | tok];
      cbn [fst snd] in *; try exact Hc;
      (split; [apply in_or_app; right; simpl; auto | exact Hc]).
  - intros Hd.
    pose proof (middleware_calls this requiredScopeList req) as Hc.
    rewrite (middleware_eq JSON_stringify Date_now _ _ _ Hd) in Hc |- *.
    cbn [snd] in Hc.
    do 2 eexists. split; [reflexivity |]. cbn [api_authorization build_api].
    unfold authorize in *.
    destruct (spec_extract (req_header req "Authorization")) as [| | tok];
      cbn [fst snd] in *; auto.
  - rewrite middleware_calls. reflexivity.
Qed.

(** C8: on each request [plugin.checkToken] is called at most once:
    exactly once, with the candidate token, when extraction yields one, and
    not at all for the absent and malformed-scheme outcomes; this holds
    whether the plugin resolves or fails. *)
Theorem checkToken_at_most_once (this : WebauthzExpress)
    (requiredScopeList : list string) (req : Request) :
  let calls :=
    checkToken_calls
      (snd (middleware JSON_stringify Date_now this requiredScopeList req)) in
  (List.length calls <= 1)%nat
  /\ calls = match spec_extract (req_header req "Authorization") with
             | candidate tok => [tok]
             | absent | malformed_scheme => []
             end.
Proof.
  cbv zeta. rewrite middleware_calls.
  destruct (spec_extract (req_header req "Authorization")); simpl; split;
    auto with arith.
Qed.

End Claims.

Section ClaimsOnScopes.

Variable JSON_stringify : value -> string.
Variable Date_now : Z.

(** C10: on the Decision Context of a request (one on which
    [req.webauthz] can be defined), isPermitted is false for every check-list,
    the empty one included, whenever the AuthorizationResult has no scope or an empty
    scope string; and isPermitted returns true only when the validator
    resolved with a token that is not expired and carries a non-empty scope
    string. *)
Theorem isPermitted_needs_granted_scope (this : WebauthzExpress)
    (requiredScopeList : list string) (req : Request) (args : list string) :
  can_define req = true ->
  exists api t,
    middleware JSON_stringify Date_now this requiredScopeList req = (Normal api, t)
    /\ (property (api_authorization api) "scope" = VUndefined
        \/ property (api_authorization api) "scope" = VString EmptyString ->
        isPermitted api args = (Normal false, []))
    /\ (fst (isPermitted api args) = Normal true ->
        exists tok tokenInfo s,
          spec_extract (req_header req "Authorization") = candidate tok
          /\ plugin this tok = Normal tokenInfo
          /\ ~ spec_expired Date_now (property tokenInfo "not_after")
          /\ api_authorization api = tokenInfo
          /\ property tokenInfo "scope" = VString s
          /\ s <> EmptyString).
Proof.
  intros Hd. rewrite (middleware_eq JSON_stringify Date_now _ _ _ Hd).
  do 2 eexists. split; [reflexivity |]. split.
  - intros H. apply isPermitted_falsy.
    + apply authorize_not_nullish.
    + destruct H as [-> | ->]; reflexivity.
  - intros H. apply isPermitted_true_inv in H. destruct H as [s [Hs Hne]].
    cbn [api_authorization build_api] in Hs |- *.
    unfold authorize in Hs |- *.
    destruct (spec_extract (req_header req "Authorization")) as [| | tok];
      try discriminate Hs.
    destruct (plugin this tok) as [tokenInfo | err] eqn:Hp; try discriminate Hs.
    assert (Hcase :
              forall v, nullish v = false ->
                property
                  (fst (if expired Date_now (property v "not_after")
                        then (error_result "token-expired",
                              [CheckToken tok;
                               Log LTrace "middleware: token expired" []])
                        else (v, [CheckToken tok;
                                  Log LTrace "middleware: valid token" []])))
                  "scope" = VString s ->
                expired Date_now (property v "not_after") = false).
    { intros v _ Hv. destruct (expired Date_now (property v "not_after"));
        [discriminate Hv | reflexivity]. }
    destruct tokenInfo as [| | b | n | s0 | items | properties];
      try discriminate Hs;
      match type of Hs with
      | property (fst (if expired _ (property ?v _) then _ else _)) _ = _ =>
          pose proof (Hcase v eq_refl Hs) as Hx; rewrite Hx in Hs |- *;
          exists tok, v, s; repeat split; try assumption;
          intros Hsx; apply expired_spec in Hsx; congruence
      end.
Qed.

End ClaimsOnScopes.

(** ** The challenge header *)

Lemma encode_char_escaped (c : ascii) : all_chars escaped_char (encode_char c) = true.
Proof. destruct c as [[] [] [] [] [] [] [] []]; reflexivity. Qed.

Lemma all_chars_append (p : ascii -> bool) (s1 s2 : string) :
  all_chars p (s1 ++ s2) = all_chars p s1 && all_chars p s2.
Proof.
  induction s1 as [| c s1 IH]; [reflexivity |].
  simpl. rewrite IH. apply andb_assoc.
Qed.

(** An escaped string holds nothing but unreserved characters and [%]: no
    space, comma or equals sign can end a field of the challenge early. *)
Lemma encodeURIComponent_escaped (s : string) :
  all_chars escaped_char (encodeURIComponent s) = true.
Proof.
  induction s as [| c s IH]; [reflexivity |].
  simpl. rewrite all_chars_append, encode_char_escaped, IH. reflexivity.
Qed.

Lemma constructor_discovery (p : Plugin) (realm' path' uri : option string) :
  exists this,
    constructor (Some p) realm' path' uri = Normal this
    /\ discovery_configured this = if truthy uri then uri else None.
Proof.
  eexists. split; [reflexivity |].
  unfold discovery_configured. cbn [webauthz_discovery_uri].
  destruct (truthy uri) eqn:E; [now rewrite E | reflexivity].
Qed.

Example constructor_sample (p : Plugin) :
  constructor (Some p) (Some "Webauthz") (Some "/api") (Some "https://x/d.json")
  = Normal (sample_resource p).
Proof. reflexivity. Qed.

Example constructor_defaults (p : Plugin) :
  constructor (Some p) None None None = Normal (sample_server p).
Proof. reflexivity. Qed.

(** C5: header() always sets the response status to 401; it sets
    WWW-Authenticate exactly when a discovery URI is configured, and then to
    'Bearer realm=R, scope=S, webauthz_discovery_uri=D, path=P' with the
    realm, the space-joined bound RequiredScopeList, the discovery URI and
    the path each percent-encoded on its own; realm "Webauthz", scopes
    ["a","b"], discovery URI "https://x/d.json" and path "/api" give
    'Bearer realm=Webauthz, scope=a%20b,
    webauthz_discovery_uri=https%3A%2F%2Fx%2Fd.json, path=%2Fapi'. *)
Theorem header_challenge (api : Api) :
  fst (header api) = Normal tt
  /\ statuses_set (snd (header api)) = [401%Z]
  /\ headers_set (snd (header api)) =
     match discovery_configured (api_this api) with
     | Some uri =>
         [("WWW-Authenticate",
           spec_challenge (realm (api_this api)) (api_requiredScopeList api) uri
             (path (api_this api)))]
     | None => []
     end
  /\ forall (p : Plugin) (authorization : value),
      headers_set
        (snd (header {| api_properties := [];
                        api_this := sample_resource p;
                        api_requiredScopeList := ["a"; "b"];
                        api_authorization := authorization |}))
      = [("WWW-Authenticate",
          "Bearer realm=Webauthz, scope=a%20b, webauthz_discovery_uri=https%3A%2F%2Fx%2Fd.json, path=%2Fapi")].
Proof.
  unfold header, discovery_configured, spec_challenge.
  destruct (webauthz_discovery_uri (api_this api)) as [uri |] eqn:E.
  - destruct (truthy (Some uri)); repeat split; reflexivity.
  - repeat split; reflexivity.
Qed.

(** ** The theorems at sample requests *)

Lemma expiry_enforced_witness :
  exists api t,
    middleware sample_stringify sample_now
      (sample_server (resolving (sample_token "calendar contacts" 500)))
      ["calendar"] (bearer_request "Bearer abc") = (Normal api, t)
    /\ (spec_expired sample_now
          (lookup (sample_attributes "calendar contacts" 500) "not_after") ->
        api_authorization api = error_result "token-expired"
        /\ lookup (api_properties api) "error" = VString "token-expired"
        /\ In (Log LTrace "middleware: token expired" []) t
        /\ forall args, isPermitted api args = (Normal false, []))
    /\ (~ spec_expired sample_now
            (lookup (sample_attributes "calendar contacts" 500) "not_after") ->
        api_authorization api = VObject (sample_attributes "calendar contacts" 500)
        /\ In (Log LTrace "middleware: valid token" []) t
        /\ forall item, In item item_names ->
                        lookup (api_properties api) item
                        = lookup (sample_attributes "calendar contacts" 500) item).
Proof.
  apply (expiry_enforced sample_stringify sample_now
           (sample_server (resolving (sample_token "calendar contacts" 500)))
           ["calendar"] (bearer_request "Bearer abc") "abc"
           (sample_attributes "calendar contacts" 500)).
  - reflexivity.
  - reflexivity.
  - reflexivity.
Defined.



Lemma expired_attributes_discarded_witness :
  exists api t,
    middleware sample_stringify sample_now
      (sample_server (resolving (sample_token "calendar contacts" 500)))
      [] (bearer_request "bearer abc") = (Normal api, t)
    /\ api_properties api =
       [("type", VUndefined); ("client_id", VUndefined); ("realm", VUndefined);
        ("scope", VUndefined); ("not_after", VUndefined); ("user_id", VUndefined);
        ("error", VString "token-expired")].
Proof.
  apply (expired_attributes_discarded sample_stringify sample_now
           (sample_server (resolving (sample_token "calendar contacts" 500)))
           [] (bearer_request "bearer abc") "abc"
           (sample_token "calendar contacts" 500)).
  - reflexivity.
  - reflexivity.
  - reflexivity.
  - reflexivity.
Defined.

Lemma no_header_is_absent_witness :
  exists api t,
    middleware sample_stringify sample_now
      (sample_server (resolving (sample_token "calendar" 2000)))
      ["calendar"] anonymous_request = (Normal api, t)
    /\ api_authorization api = error_result "authorization-header-not-found"
    /\ api_properties api =
       [("type", VUndefined); ("client_id", VUndefined); ("realm", VUndefined);
        ("scope", VUndefined); ("not_after", VUndefined); ("user_id", VUndefined);
        ("error", VString "authorization-header-not-found")]
    /\ checkToken_calls t = []
    /\ forall args, isPermitted api args = (Normal false, []).
Proof.
  apply (no_header_is_absent sample_stringify sample_now
           (sample_server (resolving (sample_token "calendar" 2000)))
           ["calendar"] anonymous_request).
  - reflexivity.
  - reflexivity.
Defined.

Lemma isPermitted_needs_granted_scope_witness :
  exists api t,
    middleware sample_stringify sample_now
      (sample_server (resolving (sample_token "calendar" 2000)))
      [] (bearer_request "Bearer abc") = (Normal api, t)
    /\ (property (api_authorization api) "scope" = VUndefined
        \/ property (api_authorization api) "scope" = VString EmptyString ->
        isPermitted api ["calendar"] = (Normal false, []))
    /\ (fst (isPermitted api ["calendar"]) = Normal true ->
        exists tok tokenInfo s,
          spec_extract (req_header (bearer_request "Bearer abc") "Authorization")
          = candidate tok
          /\ plugin (sample_server (resolving (sample_token "calendar" 2000))) tok
             = Normal tokenInfo
          /\ ~ spec_expired sample_now (property tokenInfo "not_after")
          /\ api_authorization api = tokenInfo
          /\ property tokenInfo "scope" = VString s
          /\ s <> EmptyString).
Proof.
  apply (isPermitted_needs_granted_scope sample_stringify sample_now
           (sample_server (resolving (sample_token "calendar" 2000)))
           [] (bearer_request "Bearer abc") ["calendar"]).
  reflexivity.
Defined.

(** ** The pipeline on the examples of the specification *)

Example granted_both :
  on_request (sample_server (resolving (sample_token "calendar contacts" 2000)))
    [] (bearer_request "Bearer abc")
    (fun api => isPermitted api ["calendar"; "contacts"])
  = Normal true.
Proof. reflexivity. Qed.

Example admin_not_granted :
  on_request (sample_server (resolving (sample_token "calendar contacts" 2000)))
    [] (bearer_request "Bearer abc")
    (fun api => isPermitted api ["calendar"; "admin"])
  = Normal false.
Proof. reflexivity. Qed.

Example bound_list_checked :
  on_request (sample_server (resolving (sample_token "calendar contacts" 2000)))
    ["calendar"] (bearer_request "Bearer abc")
    (fun api => isPermitted api [])
  = Normal true.
Proof. reflexivity. Qed.

Example bound_a_b_granted :
  on_request (sample_server (resolving (sample_token "a b" 2000)))
    ["a"; "b"] (bearer_request "Bearer abc") (fun api => isPermitted api [])
  = Normal true
  /\ on_request (sample_server (resolving (sample_token "a" 2000)))
       ["a"; "b"] (bearer_request "Bearer abc") (fun api => isPermitted api [])
     = Normal false.
Proof. split; reflexivity. Qed.

Example expired_token_denied :
  on_request (sample_server (resolving (sample_token "calendar contacts" 999)))
    ["calendar"] (bearer_request "Bearer abc") (fun api => isPermitted api [])
  = Normal false.
Proof. reflexivity. Qed.

(** A token whose [not_after] equals the clock is still valid. *)
Example token_at_the_limit :
  on_request (sample_server (resolving (sample_token "calendar contacts" 1000)))
    ["calendar"] (bearer_request "Bearer abc") (fun api => isPermitted api [])
  = Normal true.
Proof. reflexivity. Qed.

Example basic_is_malformed :
  spec_extract (VString "Basic xyz") = malformed_scheme.
Proof. reflexivity. Qed.

(** A plugin that resolves to undefined: reading [not_after] throws inside
    the [try], and the result is the invalid one. *)
Example undefined_token_info :
  api_authorization
    (build_api (sample_server (resolving VUndefined)) []
       (fst (authorize sample_now (sample_server (resolving VUndefined))
               (VString "Bearer abc"))))
  = error_result "invalid-token".
Proof. reflexivity. Qed.

Example json_finisher :
  snd (json (build_api (sample_resource (resolving VNull)) ["a"; "b"]
               (error_result "invalid-token"))
         (VObject [("error", VString "unauthorized")]))
  = [Log LTrace "middleware: header status 401" [];
     ResStatus 401;
     Log LTrace "middleware: header www-authenticate" [];
     ResSet "WWW-Authenticate"
       "Bearer realm=Webauthz, scope=a%20b, webauthz_discovery_uri=https%3A%2F%2Fx%2Fd.json, path=%2Fapi";
     Log LTrace "middleware: json" [];
     ResJson (VObject [("error", VString "unauthorized")])].
Proof. reflexivity. Qed.

(** The Route Binder returns the middleware closed over its arguments. *)
Example scope_binds (this : WebauthzExpress) (names : list string) :
  fst (scope sample_stringify sample_now this names)
  = Normal (middleware sample_stringify sample_now this names).
Proof. reflexivity. Qed.


(** * Further properties of the code *)

(** ** The constructor *)

(** The constructor fails exactly when no plugin is given; an instance
    never has an empty realm or path (an absent or empty one is replaced by
    the default), and its discovery URI, when set, is the non-empty one that
    was passed. *)
Theorem constructor_invariant (pl : option Plugin) (r p u : option string) :
  match constructor pl r p u with
  | Throw e => pl = None /\ e = Error "plugin is required"
  | Normal this =>
      pl = Some (plugin this)
      /\ realm this <> EmptyString
      /\ path this <> EmptyString
      /\ realm this = (if truthy r then realm this else "Webauthz")
      /\ (truthy r = true -> r = Some (realm this))
      /\ path this = (if truthy p then path this else "/")
      /\ (truthy p = true -> p = Some (path this))
      /\ match webauthz_discovery_uri this with
         | Some uri => uri <> EmptyString /\ u = Some uri
         | None => truthy u = false
         end
  end.
Proof.
  destruct pl as [pl |]; [| split; reflexivity].
  cbn [constructor plugin realm path webauthz_discovery_uri].
  split; [reflexivity |].
  assert (Hne : forall (o : option string) (s : string),
             o = Some s -> truthy o = true -> s <> EmptyString).
  { intros o s -> Ht. simpl in Ht. intros ->. discriminate Ht. }
  split.
  { destruct r as [s |]; [| discriminate].
    destruct (truthy (Some s)) eqn:E; [apply (Hne _ _ eq_refl E) | discriminate]. }
  split.
  { destruct p as [s |]; [| discriminate].
    destruct (truthy (Some s)) eqn:E; [apply (Hne _ _ eq_refl E) | discriminate]. }
  split.
  { destruct r as [s |]; [| reflexivity]. destruct (truthy (Some s)); reflexivity. }
  split.
  { destruct r as [s |]; [| discriminate]. intros ->. reflexivity. }
  split.
  { destruct p as [s |]; [| reflexivity]. destruct (truthy (Some s)); reflexivity. }
  split.
  { destruct p as [s |]; [| discriminate]. intros ->. reflexivity. }
  destruct (truthy u) eqn:E; [| reflexivity].
  destruct u as [s |]; [| discriminate E].
  split; [apply (Hne _ _ eq_refl E) | reflexivity].
Qed.

(** An instance built with an empty-string discovery URI behaves like one
    built without any: header() sets WWW-Authenticate exactly when the
    constructor was given a non-empty discovery URI. *)
Theorem constructed_header_set (pl : Plugin) (r p u : option string)
    (properties : list (string * value)) (bound : list string) (authorization : value) :
  match constructor (Some pl) r p u with
  | Normal this =>
      headers_set
        (snd (header {| api_properties := properties;
                        api_this := this;
                        api_requiredScopeList := bound;
                        api_authorization := authorization |})) = []
      <-> truthy u = false
  | Throw _ => False
  end.
Proof.
  cbn [constructor]. unfold header.
  cbn [api_this webauthz_discovery_uri api_requiredScopeList realm path].
  destruct (truthy u) eqn:E.
  - destruct u as [s |]; [| discriminate E]. rewrite E.
    split; intros H; discriminate H.
  - split; reflexivity.
Qed.

(** ** The response finishers *)

Lemma header_eq (api : Api) : header api = (Normal tt, snd (header api)).
Proof.
  unfold header.
  destruct (webauthz_discovery_uri (api_this api)) as [uri |]; [| reflexivity].
  destruct (truthy (Some uri)); reflexivity.
Qed.

Lemma header_finishers (api : Api) : filter is_finisher (snd (header api)) = [].
Proof.
  unfold header.
  destruct (webauthz_discovery_uri (api_this api)) as [uri |]; [| reflexivity].
  destruct (truthy (Some uri)); reflexivity.
Qed.

Lemma statuses_set_app (t1 t2 : list event) :
  statuses_set (t1 ++ t2) = statuses_set t1 ++ statuses_set t2.
Proof.
  induction t1 as [| e t1 IH]; [reflexivity |].
  destruct e; simpl; rewrite IH; reflexivity.
Qed.

Lemma headers_set_app (t1 t2 : list event) :
  headers_set (t1 ++ t2) = headers_set t1 ++ headers_set t2.
Proof.
  induction t1 as [| e t1 IH]; [reflexivity |].
  destruct e; simpl; rewrite IH; reflexivity.
Qed.

Lemma header_statuses (api : Api) : statuses_set (snd (header api)) = [401%Z].
Proof.
  unfold header.
  destruct (webauthz_discovery_uri (api_this api)) as [uri |]; [| reflexivity].
  destruct (truthy (Some uri)); reflexivity.
Qed.

(** header() writes no body: it never calls [res.end], [res.json] or
    [res.send], and it never calls [next] or the plugin. *)
Theorem header_sends_no_body (api : Api) :
  filter is_finisher (snd (header api)) = []
  /\ filter is_next (snd (header api)) = []
  /\ checkToken_calls (snd (header api)) = [].
Proof.
  unfold header.
  destruct (webauthz_discovery_uri (api_this api)) as [uri |].
  - destruct (truthy (Some uri)); repeat split; reflexivity.
  - repeat split; reflexivity.
Qed.

(** empty(), json(data) and html(data) complete normally; each sets the
    status 401 and the same challenge as header(), and then sends the body
    exactly once, as its last call on the response. *)
Theorem finishers_after_header (api : Api) (data : value) :
  (fst (empty api) = Normal tt
   /\ snd (empty api)
      = snd (header api) ++ [Log LTrace "middleware: empty" []; ResEnd]
   /\ filter is_finisher (snd (empty api)) = [ResEnd])
  /\ (fst (json api data) = Normal tt
      /\ snd (json api data)
         = snd (header api) ++ [Log LTrace "middleware: json" []; ResJson data]
      /\ filter is_finisher (snd (json api data)) = [ResJson data])
  /\ (fst (html api data) = Normal tt
      /\ snd (html api data)
         = snd (header api) ++ [Log LTrace "middleware: html" []; ResSend data]
      /\ filter is_finisher (snd (html api data)) = [ResSend data])
  /\ statuses_set (snd (empty api)) = [401%Z]
  /\ statuses_set (snd (json api data)) = [401%Z]
  /\ statuses_set (snd (html api data)) = [401%Z]
  /\ headers_set (snd (empty api)) = headers_set (snd (header api))
  /\ headers_set (snd (json api data)) = headers_set (snd (header api))
  /\ headers_set (snd (html api data)) = headers_set (snd (header api)).
Proof.
  assert (He : empty api
               = (Normal tt,
                  snd (header api) ++ [Log LTrace "middleware: empty" []; ResEnd]))
    by (unfold empty; rewrite header_eq; reflexivity).
  assert (Hj : json api data
               = (Normal tt,
                  snd (header api) ++ [Log LTrace "middleware: json" []; ResJson data]))
    by (unfold json; rewrite header_eq; reflexivity).
  assert (Hh : html api data
               = (Normal tt,
                  snd (header api) ++ [Log LTrace "middleware: html" []; ResSend data]))
    by (unfold html; rewrite header_eq; reflexivity).
  rewrite He, Hj, Hh. cbn [fst snd].
  rewrite !filter_app, !statuses_set_app, !headers_set_app,
    header_finishers, header_statuses.
  cbn. rewrite !app_nil_r. repeat split; reflexivity.
Qed.

(** ** The middleware as a whole *)

(** The five outcomes of the validation stage are exhaustive: the
    authorization result is one of the four error objects, or it is the
    token info itself, which then is neither undefined nor null and not
    expired. *)
Lemma authorize_cases (now : Z) (this : WebauthzExpress) (hv : value) :
  (exists tag,
      In tag ["authorization-header-not-found"; "authorization-header-not-bearer";
              "invalid-token"; "token-expired"]
      /\ fst (authorize now this hv) = error_result tag)
  \/ (exists tok tokenInfo,
         spec_extract hv = candidate tok
         /\ plugin this tok = Normal tokenInfo
         /\ nullish tokenInfo = false
         /\ expired now (property tokenInfo "not_after") = false
         /\ fst (authorize now this hv) = tokenInfo).
Proof.
  unfold authorize.
  destruct (spec_extract hv) as [| | tok].
  - left. eexists. split; [| reflexivity]. simpl. auto.
  - left. eexists. split; [| reflexivity]. simpl. auto.
  - destruct (plugin this tok) as [tokenInfo | err] eqn:Hp.
    + destruct tokenInfo as [| | b | n | s | items | properties];
        try (left; eexists; split; [| reflexivity]; simpl; now auto);
        match goal with
        | |- context [expired now (property ?v _)] =>
            destruct (expired now (property v "not_after")) eqn:Hx;
            [ left; eexists; split; [| reflexivity]; simpl; now auto
            | right; exists tok, v; repeat split; assumption || reflexivity ]
        end.
    + left. eexists. split; [| reflexivity]. simpl. auto.
Qed.

Section Pipeline.

Variable JSON_stringify : value -> string.
Variable Date_now : Z.

(** The middleware never writes to the response, whatever the outcome
    (for a request and a token info made of plain data): it sets no status
    and no header and sends no body; rejecting a request is left to the
    application.  It calls [next] exactly once when
    [req.webauthz] can be defined, and not at all when it cannot: then a
    TypeError escapes. *)
Theorem middleware_leaves_response (this : WebauthzExpress)
    (requiredScopeList : list string) (req : Request) :
  filter is_response
    (snd (middleware JSON_stringify Date_now this requiredScopeList req)) = []
  /\ filter is_next
       (snd (middleware JSON_stringify Date_now this requiredScopeList req))
     = (if can_define req then [Next] else [])
  /\ (can_define req = false ->
      exists err,
        fst (middleware JSON_stringify Date_now this requiredScopeList req) = Throw err
        /\ property err "name" = VString "TypeError").
Proof.
  rewrite middleware_run.
  destruct (authorize_quiet Date_now this (req_header req "Authorization")) as [Hr Hn].
  destruct (can_define req); cbn [fst snd]; unfold before_define;
    rewrite !filter_app, Hr, Hn.
  - split; [reflexivity |]. split; [reflexivity |]. discriminate.
  - split; [reflexivity |]. split; [reflexivity |].
    intros _. eexists. split; reflexivity.
Qed.

(** The bound RequiredScopeList plays no part in the middleware itself:
    on a request on which [req.webauthz] can be defined, two middlewares of one instance that differ only in the bound list emit
    the same events on a request and compute the same authorization result
    and the same exposed properties. *)
Theorem middleware_ignores_bound_list (this : WebauthzExpress)
    (bound1 bound2 : list string) (req : Request) :
  can_define req = true ->
  exists api1 api2 t,
    middleware JSON_stringify Date_now this bound1 req = (Normal api1, t)
    /\ middleware JSON_stringify Date_now this bound2 req = (Normal api2, t)
    /\ api_authorization api1 = api_authorization api2
    /\ api_properties api1 = api_properties api2
    /\ api_requiredScopeList api1 = bound1
    /\ api_requiredScopeList api2 = bound2.
Proof.
  intros Hd. rewrite !(middleware_eq JSON_stringify Date_now _ _ _ Hd). do 3 eexists. repeat split; reflexivity.
Qed.

(** Whatever the plugin returns, [req.webauthz], once defined, exposes
    exactly the seven
    properties type, client_id, realm, scope, not_after, user_id and error,
    in this order, each with the value the authorization result has for it;
    any other attribute of the token info is not exposed. *)
Theorem exposed_properties (this : WebauthzExpress)
    (requiredScopeList : list string) (req : Request) :
  can_define req = true ->
  exists api t,
    middleware JSON_stringify Date_now this requiredScopeList req = (Normal api, t)
    /\ map fst (api_properties api) = item_names
    /\ (forall item, In item item_names ->
          lookup (api_properties api) item = property (api_authorization api) item)
    /\ (forall other, ~ In other item_names ->
          lookup (api_properties api) other = VUndefined).
Proof.
  intros Hd. rewrite (middleware_eq JSON_stringify Date_now _ _ _ Hd). do 2 eexists. split; [reflexivity |].
  cbn [api_properties api_authorization build_api].
  split; [reflexivity |]. split.
  - intros item Hin. apply (lookup_map_items _ item_names item Hin).
  - intros other Hout.
    generalize (property
                  (fst (authorize Date_now this (req_header req "Authorization")))).
    intros f. revert Hout. generalize item_names.
    induction l as [| n l IH]; intros Hout; [reflexivity |].
    simpl. destruct (String.eqb_spec n other) as [-> | Hne].
    + exfalso. apply Hout. now left.
    + apply IH. intros Hin. apply Hout. now right.
Qed.

(** Whenever the middleware completes, the authorization result is one
    of the four error objects (header not found, header not bearer, invalid
    token, token expired), or it is the token info the plugin resolved to,
    which is then neither undefined nor null and not expired.  The two cases
    can coincide: a plugin may itself resolve to such an error object. *)
Theorem five_outcomes (this : WebauthzExpress)
    (requiredScopeList : list string) (req : Request) :
  can_define req = true ->
  exists api t,
    middleware JSON_stringify Date_now this requiredScopeList req = (Normal api, t)
    /\ ((exists tag,
            In tag ["authorization-header-not-found";
                    "authorization-header-not-bearer";
                    "invalid-token"; "token-expired"]
            /\ api_authorization api = error_result tag
            /\ lookup (api_properties api) "error" = VString tag
            /\ lookup (api_properties api) "scope" = VUndefined)
        \/ (exists tok tokenInfo,
               checkToken_calls t = [tok]
               /\ plugin this tok = Normal tokenInfo
               /\ nullish tokenInfo = false
               /\ ~ spec_expired Date_now (property tokenInfo "not_after")
               /\ api_authorization api = tokenInfo)).
Proof.
  intros Hd.
  pose proof (middleware_calls JSON_stringify Date_now this requiredScopeList req) as Hc.
  rewrite (middleware_eq JSON_stringify Date_now _ _ _ Hd) in Hc |- *. cbn [snd] in Hc.
  do 2 eexists. split; [reflexivity |].
  cbn [api_properties api_authorization build_api].
  destruct (authorize_cases Date_now this (req_header req "Authorization"))
    as [[tag [Hin Ha]] | [tok [tokenInfo [He [Hp [Hn [Hx Ha]]]]]]].
  - left. exists tag. rewrite Ha. split; [assumption |]. split; [reflexivity |].
    split; reflexivity.
  - right. exists tok, tokenInfo. rewrite Hc, He, Ha.
    repeat split; try assumption.
    intros Hs. apply expired_spec in Hs. congruence.
Qed.

(** On a request on which [req.webauthz] can be defined, a plugin that
    resolves to undefined or null is treated like one that fails: reading [not_after] throws inside the [try], the TypeError is
    logged at error level, and the result is the invalid one. *)
Theorem nullish_token_info_is_invalid (this : WebauthzExpress)
    (requiredScopeList : list string) (req : Request) (tok : string)
    (tokenInfo : value) :
  spec_extract (req_header req "Authorization") = candidate tok ->
  plugin this tok = Normal tokenInfo ->
  nullish tokenInfo = true ->
  can_define req = true ->
  exists api t err,
    middleware JSON_stringify Date_now this requiredScopeList req = (Normal api, t)
    /\ api_authorization api = error_result "invalid-token"
    /\ lookup (api_properties api) "error" = VString "invalid-token"
    /\ In (Log LError "middleware: valid token" [err]) t
    /\ property err "name" = VString "TypeError"
    /\ forall args, isPermitted api args = (Normal false, []).
Proof.
  intros He Hp Hn Hd. rewrite (middleware_eq JSON_stringify Date_now _ _ _ Hd). unfold authorize. rewrite He, Hp.
  destruct tokenInfo; try discriminate Hn; cbn [fst snd];
    do 3 eexists; (split; [reflexivity |]);
    (split; [reflexivity |]); (split; [reflexivity |]);
    (split; [apply in_or_app; right; simpl; auto |]);
    (split; [reflexivity |]);
    intros args; apply isPermitted_falsy; reflexivity.
Qed.

(** On a request on which [req.webauthz] can be defined, a plugin that
    resolves to a value that is not an object (a boolean, a number or a
    string) or to an array yields a Decision Context without any
    attribute: the seven properties, error included, are undefined, and
    isPermitted is false for every check-list. *)
Theorem primitive_token_info (this : WebauthzExpress)
    (requiredScopeList : list string) (req : Request) (tok : string)
    (tokenInfo : value) :
  spec_extract (req_header req "Authorization") = candidate tok ->
  plugin this tok = Normal tokenInfo ->
  nullish tokenInfo = false ->
  (forall attributes, tokenInfo <> VObject attributes) ->
  can_define req = true ->
  exists api t,
    middleware JSON_stringify Date_now this requiredScopeList req = (Normal api, t)
    /\ api_authorization api = tokenInfo
    /\ api_properties api = map (fun item => (item, VUndefined)) item_names
    /\ forall args, isPermitted api args = (Normal false, []).
Proof.
  intros He Hp Hn Hobj Hd. rewrite (middleware_eq JSON_stringify Date_now _ _ _ Hd).
  rewrite (authorize_resolved Date_now this _ tok tokenInfo He Hp Hn).
  destruct tokenInfo as [| | b | n | s | items | attributes];
    try discriminate Hn;
    try (cbn [property expired fst snd];
         do 2 eexists; split; [reflexivity |]; split; [reflexivity |];
         split; [reflexivity |];
         intros args; apply isPermitted_falsy; reflexivity).
  exfalso. now apply (Hobj attributes).
Qed.

End Pipeline.

(** ** The token handed to the plugin *)

Lemma trimStart_starts (s : string) : starts_white (trimStart s) = false.
Proof.
  induction s as [| c s IH]; [reflexivity |].
  simpl. destruct (is_white c) eqn:E; [exact IH |]. simpl. exact E.
Qed.

Lemma trimEnd_ends (s : string) : ends_white (trimEnd s) = false.
Proof.
  induction s as [| c s IH]; [reflexivity |].
  simpl. destruct (trimEnd s) as [| d t] eqn:E.
  - destruct (is_white c) eqn:Ec; [reflexivity |]. simpl. exact Ec.
  - exact IH.
Qed.

Lemma trimEnd_starts (s : string) :
  starts_white s = false -> starts_white (trimEnd s) = false.
Proof.
  destruct s as [| c s]; [reflexivity |].
  simpl. intros Hc. destruct (trimEnd s); [rewrite Hc |]; simpl; exact Hc.
Qed.

Lemma trimStart_white (s : string) :
  all_chars is_white s = true -> trimStart s = EmptyString.
Proof.
  induction s as [| c s IH]; [reflexivity |].
  simpl. intros H. apply andb_prop in H. destruct H as [Hc Hs].
  rewrite Hc. now apply IH.
Qed.

Lemma substr_append (pre rest : string) :
  substr (pre ++ rest) (String.length pre) = rest.
Proof.
  induction pre as [| c pre IH]; [destruct rest; reflexivity |].
  simpl. exact IH.
Qed.

Lemma starts_with_ignore_case_append (s p rest : string) :
  starts_with_ignore_case s p = true ->
  starts_with_ignore_case (s ++ rest) p = true.
Proof.
  revert s. induction p as [| b p IH]; intros s H; [reflexivity |].
  destruct s as [| a s]; [discriminate H |].
  simpl in *. apply andb_prop in H. destruct H as [Ha Hs].
  rewrite Ha. now apply IH.
Qed.

Section Token.

Variable JSON_stringify : value -> string.
Variable Date_now : Z.

(** The token the plugin receives never starts and never ends with white
    space, whatever the header. *)
Theorem token_is_trimmed (this : WebauthzExpress)
    (requiredScopeList : list string) (req : Request) :
  Forall (fun tok => starts_white tok = false /\ ends_white tok = false)
    (checkToken_calls
       (snd (middleware JSON_stringify Date_now this requiredScopeList req))).
Proof.
  rewrite middleware_calls. unfold spec_extract.
  destruct (req_header req "Authorization") as [| | b | n | h | items | ps];
    try constructor.
  destruct (starts_with_ignore_case h "bearer "); constructor; [| constructor].
  unfold trim. split.
  - apply trimEnd_starts, trimStart_starts.
  - apply trimEnd_ends.
Qed.

(** A header that holds the scheme and nothing but white space after it
    is not short-circuited: the plugin is called once, with the empty
    string. *)
Theorem blank_token_reaches_plugin (this : WebauthzExpress)
    (requiredScopeList : list string) (req : Request) (scheme blank : string) :
  String.length scheme = 7%nat ->
  starts_with_ignore_case scheme "bearer " = true ->
  all_chars is_white blank = true ->
  req_header req "Authorization" = VString (scheme ++ blank) ->
  checkToken_calls
    (snd (middleware JSON_stringify Date_now this requiredScopeList req))
  = [EmptyString].
Proof.
  intros Hlen Hs Hb Hh. rewrite middleware_calls, Hh. unfold spec_extract.
  rewrite (starts_with_ignore_case_append scheme "bearer " blank Hs).
  rewrite <- Hlen, substr_append. unfold trim.
  rewrite (trimStart_white blank Hb). reflexivity.
Qed.

End Token.

(** ** More on isPermitted *)

Lemma isPermitted_value (api : Api) (args : list string) :
  nullish (api_authorization api) = false ->
  typeof_string (property (api_authorization api) "scope")
  || negb (ToBoolean (property (api_authorization api) "scope")) = true ->
  isPermitted api args =
  (Normal (ToBoolean (property (api_authorization api) "scope")
           && every (check_list (api_requiredScopeList api) args)
                (fun v => includes
                            (granted_pieces (property (api_authorization api) "scope"))
                            v)),
   []).
Proof.
  intros Hn Hs. unfold isPermitted.
  rewrite (get_property _ _ Hn), check_list_eq. cbn [bind ret].
  destruct (ToBoolean (property (api_authorization api) "scope")) eqn:Hb;
    [| reflexivity].
  destruct (property (api_authorization api) "scope"); try discriminate Hs;
    try discriminate Hb.
  reflexivity.
Qed.

Lemma every_same_elements (a b : list string) (p : string -> bool) :
  (forall x, In x a <-> In x b) -> every a p = every b p.
Proof.
  intros H. unfold every.
  destruct (forallb p a) eqn:Ea; symmetry.
  - apply forallb_forall. intros x Hx.
    rewrite forallb_forall in Ea. apply Ea, H, Hx.
  - destruct (forallb p b) eqn:Eb; [| reflexivity].
    rewrite forallb_forall in Eb.
    assert (forallb p a = true) by (apply forallb_forall; intros x Hx; apply Eb, H, Hx).
    congruence.
Qed.

(** isPermitted has no side effect: whatever it returns or throws, it
    logs nothing, does not call the plugin and does not touch the
    response. *)
Theorem isPermitted_is_silent (api : Api) (args : list string) :
  snd (isPermitted api args) = [].
Proof.
  unfold isPermitted.
  destruct (api_authorization api) as [| | b | n | s | items | properties];
    try reflexivity.
  cbn [get bind ret].
  destruct (lookup properties "scope") as [| | b | n | s | items | ps];
    try reflexivity.
  - destruct b; reflexivity.
  - destruct n as [| negative | q]; try reflexivity.
    cbn [ToBoolean]. destruct (Qeq_bool q 0); reflexivity.
  - cbn [ToBoolean]. destruct (String.eqb s EmptyString); reflexivity.
Qed.

(** Explicit arguments replace the bound RequiredScopeList altogether:
    with at least one argument, two Decision Contexts with the same
    authorization result answer alike, whatever lists they are bound to. *)
Theorem isPermitted_arguments_override (api1 api2 : Api) (args : list string) :
  args <> [] ->
  api_authorization api1 = api_authorization api2 ->
  isPermitted api1 args = isPermitted api2 args.
Proof.
  intros Ha He. unfold isPermitted. rewrite !check_list_eq, He.
  destruct args; [congruence | reflexivity].
Qed.

(** Only the set of names in the check-list matters: two calls whose
    check-lists hold the same names, in any order and with any repetition,
    give the same result. *)
Theorem isPermitted_same_names (api : Api) (args1 args2 : list string) :
  (forall name,
      In name (check_list (api_requiredScopeList api) args1)
      <-> In name (check_list (api_requiredScopeList api) args2)) ->
  isPermitted api args1 = isPermitted api args2.
Proof.
  intros H. unfold isPermitted. rewrite !check_list_eq.
  destruct (get (api_authorization api) "scope") as [[v | e] t]; [| reflexivity].
  cbn [bind]. destruct (negb (ToBoolean v)); [reflexivity |].
  destruct (call_split v " ") as [[granted | e] t']; [| reflexivity].
  cbn [bind ret]. now rewrite (every_same_elements _ _ _ H).
Qed.

(** Checking two non-empty lists of names at once is the conjunction of
    checking each: isPermitted(...a, ...b) is isPermitted(...a) &&
    isPermitted(...b). *)
Theorem isPermitted_append (api : Api) (a b : list string) :
  a <> [] -> b <> [] ->
  nullish (api_authorization api) = false ->
  typeof_string (property (api_authorization api) "scope")
  || negb (ToBoolean (property (api_authorization api) "scope")) = true ->
  exists r1 r2 : bool,
    isPermitted api a = (Normal r1, [])
    /\ isPermitted api b = (Normal r2, [])
    /\ isPermitted api (a ++ b) = (Normal (r1 && r2), []).
Proof.
  intros Ha Hb Hn Hs.
  rewrite !(isPermitted_value api _ Hn Hs).
  do 2 eexists. split; [reflexivity |]. split; [reflexivity |].
  f_equal. f_equal.
  destruct a as [| x a]; [congruence |]. destruct b as [| y b]; [congruence |].
  cbn [check_list app]. unfold every.
  change (x :: a ++ y :: b) with ((x :: a) ++ (y :: b)).
  rewrite forallb_app.
  destruct (ToBoolean (property (api_authorization api) "scope")); reflexivity.
Qed.

(** Granting more never revokes: if every piece of one granted scope
    string is a piece of another, whatever isPermitted allows under the first
    it allows under the second. *)
Theorem isPermitted_monotone (api1 api2 : Api) (s1 s2 : string) (args : list string) :
  nullish (api_authorization api2) = false ->
  property (api_authorization api1) "scope" = VString s1 ->
  property (api_authorization api2) "scope" = VString s2 ->
  s2 <> EmptyString ->
  api_requiredScopeList api1 = api_requiredScopeList api2 ->
  (forall piece, In piece (split s1 " ") -> In piece (split s2 " ")) ->
  fst (isPermitted api1 args) = Normal true ->
  isPermitted api2 args = (Normal true, []).
Proof.
  intros Hn2 Hs1 Hs2 Hne2 Hb Hsub H1.
  assert (Hn1 : nullish (api_authorization api1) = false)
    by (destruct (api_authorization api1); try reflexivity; discriminate Hs1).
  destruct (isPermitted_true_inv api1 args H1) as [s [Hs Hne1]].
  rewrite Hs1 in Hs. injection Hs as <-.
  rewrite (isPermitted_string api1 s1 args Hn1 Hs1 Hne1) in H1.
  rewrite (isPermitted_string api2 s2 args Hn2 Hs2 Hne2).
  cbn [fst] in H1. injection H1 as H1.
  f_equal. f_equal. rewrite <- Hb.
  apply every_includes. apply every_includes in H1.
  rewrite Forall_forall in *. intros x Hx. apply Hsub, H1, Hx.
Qed.

(** A name that contains a space can never be permitted: the pieces of
    the granted scope string hold no space, so a check-list with such a name
    never gives true. *)
Theorem isPermitted_no_name_with_space (api : Api) (args : list string)
    (name : string) :
  In name (check_list (api_requiredScopeList api) args) ->
  occurs " " name = true ->
  fst (isPermitted api args) <> Normal true.
Proof.
  intros Hin Hsp H.
  destruct (isPermitted_true_inv api args H) as [s [Hs Hne]].
  assert (Hn : nullish (api_authorization api) = false)
    by (destruct (api_authorization api); try reflexivity; discriminate Hs).
  rewrite (isPermitted_string api s args Hn Hs Hne) in H.
  cbn [fst] in H. injection H as H.
  apply every_includes in H. rewrite Forall_forall in H.
  pose proof (split_pieces s " " name (H name Hin)) as Hno.
  congruence.
Qed.

(** ** Splitting and joining scope names *)

Lemma split_without_separator (x : string) (sep : ascii) :
  occurs sep x = false -> split x sep = [x].
Proof.
  induction x as [| c x IH]; [reflexivity |].
  simpl. intros H. apply orb_false_elim in H. destruct H as [Hc Hx].
  rewrite Hc, (IH Hx). reflexivity.
Qed.

Lemma split_append_separator (x rest : string) (sep : ascii) :
  occurs sep x = false ->
  split (x ++ String sep rest) sep = x :: split rest sep.
Proof.
  induction x as [| c x IH]; intros H.
  - simpl. now rewrite Ascii.eqb_refl.
  - simpl in H. apply orb_false_elim in H. destruct H as [Hc Hx].
    simpl. rewrite Hc, (IH Hx). reflexivity.
Qed.

(** Names without the separator survive a join followed by a split. *)
Lemma split_join (names : list string) (sep : ascii) :
  names <> [] ->
  Forall (fun name => occurs sep name = false) names ->
  split (join names (String sep EmptyString)) sep = names.
Proof.
  induction names as [| x names IH]; intros Hne Hall; [congruence |].
  inversion Hall as [| ? ? Hx Hrest]; subst.
  destruct names as [| y names].
  - simpl. now apply split_without_separator.
  - rewrite join_cons by discriminate. cbn [append].
    rewrite (split_append_separator x _ sep Hx).
    f_equal. apply IH; [discriminate | assumption].
Qed.

(** The scope string that header() advertises is enough: a Decision
    Context bound to names without spaces, whose granted scope is those names
    joined by spaces, passes isPermitted(). *)
Theorem advertised_scope_is_sufficient (api : Api) :
  api_requiredScopeList api <> [] ->
  Forall (fun name => occurs " " name = false) (api_requiredScopeList api) ->
  join (api_requiredScopeList api) " " <> EmptyString ->
  nullish (api_authorization api) = false ->
  property (api_authorization api) "scope"
  = VString (join (api_requiredScopeList api) " ") ->
  isPermitted api [] = (Normal true, []).
Proof.
  intros Hne Hall Hj Hn Hs.
  rewrite (isPermitted_string api _ [] Hn Hs Hj).
  rewrite (split_join _ " " Hne Hall). cbn [check_list].
  f_equal. f_equal. apply every_includes, Forall_forall. auto.
Qed.

Section ScopeBinding.

Variable JSON_stringify : value -> string.
Variable Date_now : Z.

(** On a request on which [req.webauthz] can be defined, a granted scope
    that is truthy but not a string (an array of names, say) makes every call of isPermitted throw a TypeError: only strings have
    a [split] method. *)
Theorem non_string_scope_throws (this : WebauthzExpress)
    (requiredScopeList : list string) (req : Request) (tok : string)
    (attributes : list (string * value)) :
  spec_extract (req_header req "Authorization") = candidate tok ->
  plugin this tok = Normal (VObject attributes) ->
  expired Date_now (lookup attributes "not_after") = false ->
  typeof_string (lookup attributes "scope") = false ->
  ToBoolean (lookup attributes "scope") = true ->
  can_define req = true ->
  exists api t,
    middleware JSON_stringify Date_now this requiredScopeList req = (Normal api, t)
    /\ forall args,
        exists err,
          isPermitted api args = (Throw err, [])
          /\ property err "name" = VString "TypeError".
Proof.
  intros He Hp Hx Ht Hb Hd. rewrite (middleware_eq JSON_stringify Date_now _ _ _ Hd).
  rewrite (authorize_resolved Date_now this _ tok (VObject attributes) He Hp eq_refl).
  cbn [property]. rewrite Hx. cbn [fst snd].
  do 2 eexists. split; [reflexivity |]. intros args.
  eexists. split.
  - apply isPermitted_not_a_string; [reflexivity | exact Ht | exact Hb].
  - reflexivity.
Qed.

(** On a request on which [req.webauthz] can be defined, binding names
    with scope(...names) and calling isPermitted() is the same as using the plain middleware and calling isPermitted(...names):
    scope logs once at registration, and on every request the two calls give
    the same result. *)
Theorem scope_binds_arguments (this : WebauthzExpress) (names : list string)
    (req : Request) :
  can_define req = true ->
  exists bound_middleware api1 api2 t,
    scope JSON_stringify Date_now this names
    = (Normal bound_middleware,
       [Log LTrace ("middleware: init with requiredScopeList "
                    ++ JSON_stringify (VArray (map VString names))) []])
    /\ bound_middleware req = (Normal api1, t)
    /\ middleware JSON_stringify Date_now this [] req = (Normal api2, t)
    /\ isPermitted api1 [] = isPermitted api2 names.
Proof.
  intros Hd. eexists. do 3 eexists. split; [reflexivity |].
  rewrite !(middleware_eq JSON_stringify Date_now _ _ _ Hd). split; [reflexivity |]. split; [reflexivity |].
  unfold isPermitted. rewrite !check_list_eq.
  cbn [api_requiredScopeList api_authorization build_api].
  destruct names; reflexivity.
Qed.

End ScopeBinding.

(** ** Percent-encoding *)

Lemma unescape_encode_char (c : ascii) (rest : string) :
  unescape (encode_char c ++ rest) = String c (unescape rest).
Proof. destruct c as [[] [] [] [] [] [] [] []]; reflexivity. Qed.

Lemma unescape_encodeURIComponent (s : string) :
  unescape (encodeURIComponent s) = s.
Proof.
  induction s as [| c s IH]; [reflexivity |].
  cbn [encodeURIComponent]. rewrite unescape_encode_char, IH. reflexivity.
Qed.

Lemma encodeURIComponent_injective (s1 s2 : string) :
  encodeURIComponent s1 = encodeURIComponent s2 -> s1 = s2.
Proof.
  intros H. rewrite <- (unescape_encodeURIComponent s1), H.
  apply unescape_encodeURIComponent.
Qed.

Lemma escaped_without_comma (s : string) :
  all_chars escaped_char s = true -> occurs "," s = false.
Proof.
  induction s as [| c s IH]; [reflexivity |].
  simpl. intros H. apply andb_prop in H. destruct H as [Hc Hs].
  rewrite (IH Hs). destruct (Ascii.eqb_spec c ","); [subst; discriminate Hc | reflexivity].
Qed.

Lemma append_cancel (p a b : string) : (p ++ a = p ++ b)%string -> a = b.
Proof.
  induction p as [| c p IH]; intros H; [exact H |].
  simpl in H. injection H as H. now apply IH.
Qed.

Lemma append_comma_split (a a' x x' : string) :
  occurs "," a = false -> occurs "," a' = false ->
  (a ++ String "," x = a' ++ String "," x')%string ->
  a = a' /\ x = x'.
Proof.
  revert a'. induction a as [| c a IH]; intros a' Ha Ha' H.
  - destruct a' as [| c' a'].
    + simpl in H. injection H as H. now split.
    + simpl in H. injection H as Hc _. subst c'.
      simpl in Ha'. discriminate Ha'.
  - destruct a' as [| c' a'].
    + simpl in H. injection H as Hc _. subst c.
      simpl in Ha. discriminate Ha.
    + simpl in H. injection H as Hc H. subst c'.
      simpl in Ha, Ha'.
      apply orb_false_elim in Ha. apply orb_false_elim in Ha'.
      destruct (IH a' (proj2 Ha) (proj2 Ha') H) as [-> ->]. now split.
Qed.

(** Percent-encoding loses nothing: unescaping gives the string back, so
    different strings have different encodings; and a string of unreserved
    characters is its own encoding. *)
Theorem encodeURIComponent_round_trip (s : string) :
  unescape (encodeURIComponent s) = s
  /\ all_chars escaped_char (encodeURIComponent s) = true
  /\ (all_chars unreserved s = true -> encodeURIComponent s = s).
Proof.
  split; [apply unescape_encodeURIComponent |].
  split; [apply encodeURIComponent_escaped |].
  induction s as [| c s IH]; [reflexivity |].
  simpl. intros H. apply andb_prop in H. destruct H as [Hc Hs].
  unfold encode_char. rewrite Hc, (IH Hs). reflexivity.
Qed.

Lemma challenge_injective (realm1 realm2 : string)
    (scopes1 scopes2 : list string) (uri1 uri2 path1 path2 : string) :
  spec_challenge realm1 scopes1 uri1 path1 = spec_challenge realm2 scopes2 uri2 path2 ->
  realm1 = realm2
  /\ join scopes1 " " = join scopes2 " "
  /\ uri1 = uri2
  /\ path1 = path2.
Proof.
  unfold spec_challenge. intros H.
  apply append_cancel in H.
  apply append_comma_split in H;
    try (apply escaped_without_comma, encodeURIComponent_escaped).
  destruct H as [Hr H].
  apply (append_cancel " scope=") in H.
  apply append_comma_split in H;
    try (apply escaped_without_comma, encodeURIComponent_escaped).
  destruct H as [Hs H].
  apply (append_cancel " webauthz_discovery_uri=") in H.
  apply append_comma_split in H;
    try (apply escaped_without_comma, encodeURIComponent_escaped).
  destruct H as [Hu H].
  apply (append_cancel " path=") in H.
  repeat split; now apply encodeURIComponent_injective.
Qed.

Lemma header_headers_set (api : Api) :
  headers_set (snd (header api)) =
  match discovery_configured (api_this api) with
  | Some uri =>
      [("WWW-Authenticate",
        spec_challenge (realm (api_this api)) (api_requiredScopeList api) uri
          (path (api_this api)))]
  | None => []
  end.
Proof.
  unfold header, discovery_configured, spec_challenge.
  destruct (webauthz_discovery_uri (api_this api)) as [uri |]; [| reflexivity].
  destruct (truthy (Some uri)); reflexivity.
Qed.

(** The challenge tells its four parts apart: when header() sets the same
    WWW-Authenticate value for two Decision Contexts, their realms, their
    bound scope names joined by spaces, their discovery URIs and their paths
    are equal. *)
Theorem challenge_determines_parts (api1 api2 : Api) :
  headers_set (snd (header api1)) <> [] ->
  headers_set (snd (header api1)) = headers_set (snd (header api2)) ->
  realm (api_this api1) = realm (api_this api2)
  /\ join (api_requiredScopeList api1) " " = join (api_requiredScopeList api2) " "
  /\ discovery_configured (api_this api1) = discovery_configured (api_this api2)
  /\ path (api_this api1) = path (api_this api2).
Proof.
  rewrite !header_headers_set.
  destruct (discovery_configured (api_this api1)) as [uri1 |]; [| congruence].
  destruct (discovery_configured (api_this api2)) as [uri2 |]; [| discriminate].
  intros _ H.
  assert (Hv := f_equal (fun l : list (string * string) =>
                           match l with
                           | (_, v) :: _ => v
                           | [] => EmptyString
                           end) H).
  cbv beta iota in Hv.
  destruct (challenge_injective _ _ _ _ _ _ _ _ Hv) as [Hr [Hs [Hu Hp]]].
  subst uri2. repeat split; assumption.
Qed.

(** ** The further properties at sample inputs *)

Lemma nullish_token_info_is_invalid_witness :
  exists api t err,
    middleware sample_stringify sample_now (sample_server (resolving VUndefined))
      ["calendar"] (bearer_request "Bearer abc") = (Normal api, t)
    /\ api_authorization api = error_result "invalid-token"
    /\ lookup (api_properties api) "error" = VString "invalid-token"
    /\ In (Log LError "middleware: valid token" [err]) t
    /\ property err "name" = VString "TypeError"
    /\ forall args, isPermitted api args = (Normal false, []).
Proof.
  apply (nullish_token_info_is_invalid sample_stringify sample_now
           (sample_server (resolving VUndefined)) ["calendar"]
           (bearer_request "Bearer abc") "abc" VUndefined).
  - reflexivity.
  - reflexivity.
  - reflexivity.
  - reflexivity.
Defined.

Lemma primitive_token_info_witness :
  exists api t,
    middleware sample_stringify sample_now
      (sample_server (resolving (VString "ok")))
      ["calendar"] (bearer_request "Bearer abc") = (Normal api, t)
    /\ api_authorization api = VString "ok"
    /\ api_properties api = map (fun item => (item, VUndefined)) item_names
    /\ forall args, isPermitted api args = (Normal false, []).
Proof.
  apply (primitive_token_info sample_stringify sample_now
           (sample_server (resolving (VString "ok"))) ["calendar"]
           (bearer_request "Bearer abc") "abc" (VString "ok")).
  - reflexivity.
  - reflexivity.
  - reflexivity.
  - intros attributes H. discriminate H.
  - reflexivity.
Defined.

Lemma blank_token_reaches_plugin_witness :
  checkToken_calls
    (snd (middleware sample_stringify sample_now (sample_server (resolving VNull))
            [] (bearer_request "BEARER    ")))
  = [EmptyString].
Proof.
  apply (blank_token_reaches_plugin sample_stringify sample_now
           (sample_server (resolving VNull)) [] (bearer_request "BEARER    ")
           "BEARER " "   ").
  - reflexivity.
  - reflexivity.
  - reflexivity.
  - reflexivity.
Defined.

Lemma isPermitted_arguments_override_witness :
  isPermitted
    (build_api (sample_server (resolving VNull)) ["admin"]
       (sample_token "calendar contacts" 2000)) ["calendar"]
  = isPermitted
      (build_api (sample_server (resolving VNull)) []
         (sample_token "calendar contacts" 2000)) ["calendar"].
Proof.
  apply (isPermitted_arguments_override
           (build_api (sample_server (resolving VNull)) ["admin"]
              (sample_token "calendar contacts" 2000))
           (build_api (sample_server (resolving VNull)) []
              (sample_token "calendar contacts" 2000))
           ["calendar"]).
  - intros H. discriminate H.
  - reflexivity.
Defined.

Lemma isPermitted_same_names_witness :
  isPermitted
    (build_api (sample_server (resolving VNull)) []
       (sample_token "calendar contacts" 2000)) ["calendar"; "contacts"]
  = isPermitted
      (build_api (sample_server (resolving VNull)) []
         (sample_token "calendar contacts" 2000))
      ["contacts"; "calendar"; "calendar"].
Proof.
  apply (isPermitted_same_names
           (build_api (sample_server (resolving VNull)) []
              (sample_token "calendar contacts" 2000))
           ["calendar"; "contacts"] ["contacts"; "calendar"; "calendar"]).
  intros name. simpl. tauto.
Defined.

Lemma isPermitted_append_witness :
  exists r1 r2 : bool,
    isPermitted
      (build_api (sample_server (resolving VNull)) []
         (sample_token "calendar contacts" 2000)) ["calendar"]
    = (Normal r1, [])
    /\ isPermitted
         (build_api (sample_server (resolving VNull)) []
            (sample_token "calendar contacts" 2000)) ["admin"]
       = (Normal r2, [])
    /\ isPermitted
         (build_api (sample_server (resolving VNull)) []
            (sample_token "calendar contacts" 2000)) (["calendar"] ++ ["admin"])
       = (Normal (r1 && r2), []).
Proof.
  apply (isPermitted_append
           (build_api (sample_server (resolving VNull)) []
              (sample_token "calendar contacts" 2000))
           ["calendar"] ["admin"]).
  - intros H. discriminate H.
  - intros H. discriminate H.
  - reflexivity.
  - reflexivity.
Defined.

Lemma isPermitted_monotone_witness :
  isPermitted
    (build_api (sample_server (resolving VNull)) []
       (sample_token "calendar contacts" 2000)) ["calendar"]
  = (Normal true, []).
Proof.
  apply (isPermitted_monotone
           (build_api (sample_server (resolving VNull)) []
              (sample_token "calendar" 2000))
           (build_api (sample_server (resolving VNull)) []
              (sample_token "calendar contacts" 2000))
           "calendar" "calendar contacts" ["calendar"]).
  - reflexivity.
  - reflexivity.
  - reflexivity.
  - intros H. discriminate H.
  - reflexivity.
  - simpl. intros piece H. tauto.
  - reflexivity.
Defined.

Lemma isPermitted_no_name_with_space_witness :
  fst (isPermitted
         (build_api (sample_server (resolving VNull)) []
            (sample_token "calendar contacts" 2000)) ["calendar contacts"])
  <> Normal true.
Proof.
  apply (isPermitted_no_name_with_space
           (build_api (sample_server (resolving VNull)) []
              (sample_token "calendar contacts" 2000))
           ["calendar contacts"] "calendar contacts").
  - simpl. left. reflexivity.
  - reflexivity.
Defined.

Lemma advertised_scope_is_sufficient_witness :
  isPermitted
    (build_api (sample_resource (resolving VNull)) ["a"; "b"] (sample_token "a b" 2000))
    []
  = (Normal true, []).
Proof.
  apply (advertised_scope_is_sufficient
           (build_api (sample_resource (resolving VNull)) ["a"; "b"]
              (sample_token "a b" 2000))).
  - intros H. discriminate H.
  - repeat constructor.
  - intros H. discriminate H.
  - reflexivity.
  - reflexivity.
Defined.

Lemma non_string_scope_throws_witness :
  exists api t,
    middleware sample_stringify sample_now
      (sample_server
         (resolving (VObject [("scope", VArray [VString "a"; VString "b"])])))
      [] (bearer_request "Bearer abc") = (Normal api, t)
    /\ forall args,
        exists err,
          isPermitted api args = (Throw err, [])
          /\ property err "name" = VString "TypeError".
Proof.
  apply (non_string_scope_throws sample_stringify sample_now
           (sample_server
              (resolving (VObject [("scope", VArray [VString "a"; VString "b"])])))
           [] (bearer_request "Bearer abc") "abc"
           [("scope", VArray [VString "a"; VString "b"])]).
  - reflexivity.
  - reflexivity.
  - reflexivity.
  - reflexivity.
  - reflexivity.
  - reflexivity.
Defined.

Lemma challenge_determines_parts_witness :
  realm (sample_resource (resolving VNull)) = realm (sample_resource (resolving VUndefined))
  /\ join ["a"; "b"] " " = join ["a"; "b"] " "
  /\ discovery_configured (sample_resource (resolving VNull))
     = discovery_configured (sample_resource (resolving VUndefined))
  /\ path (sample_resource (resolving VNull))
     = path (sample_resource (resolving VUndefined)).
Proof.
  apply (challenge_determines_parts
           (build_api (sample_resource (resolving VNull)) ["a"; "b"]
              (error_result "invalid-token"))
           (build_api (sample_resource (resolving VUndefined)) ["a"; "b"]
              (error_result "token-expired"))).
  - intros H. discriminate H.
  - reflexivity.
Defined.

(** Two lists of names with the same join give the same challenge. *)
Example join_is_not_injective :
  join ["a b"] " " = join ["a"; "b"] " ".
Proof. reflexivity. Qed.

Lemma middleware_ignores_bound_list_witness :
  exists api1 api2 t,
    middleware sample_stringify sample_now
      (sample_server (resolving (sample_token "calendar" 2000)))
      ["calendar"] (bearer_request "Bearer abc") = (Normal api1, t)
    /\ middleware sample_stringify sample_now
         (sample_server (resolving (sample_token "calendar" 2000)))
         ["admin"; "contacts"] (bearer_request "Bearer abc") = (Normal api2, t)
    /\ api_authorization api1 = api_authorization api2
    /\ api_properties api1 = api_properties api2
    /\ api_requiredScopeList api1 = ["calendar"]
    /\ api_requiredScopeList api2 = ["admin"; "contacts"].
Proof.
  apply (middleware_ignores_bound_list sample_stringify sample_now
           (sample_server (resolving (sample_token "calendar" 2000)))
           ["calendar"] ["admin"; "contacts"] (bearer_request "Bearer abc")).
  reflexivity.
Defined.

Lemma exposed_properties_witness :
  exists api t,
    middleware sample_stringify sample_now
      (sample_server
         (resolving (VObject [("scope", VString "calendar");
                              ("secret", VString "s3")])))
      [] (bearer_request "Bearer abc") = (Normal api, t)
    /\ map fst (api_properties api) = item_names
    /\ (forall item, In item item_names ->
          lookup (api_properties api) item = property (api_authorization api) item)
    /\ (forall other, ~ In other item_names ->
          lookup (api_properties api) other = VUndefined).
Proof.
  apply (exposed_properties sample_stringify sample_now
           (sample_server
              (resolving (VObject [("scope", VString "calendar");
                                   ("secret", VString "s3")])))
           [] (bearer_request "Bearer abc")).
  reflexivity.
Defined.

Lemma five_outcomes_witness :
  exists api t,
    middleware sample_stringify sample_now
      (sample_server (resolving (sample_token "calendar" 2000)))
      [] (bearer_request "Basic abc") = (Normal api, t)
    /\ ((exists tag,
            In tag ["authorization-header-not-found";
                    "authorization-header-not-bearer";
                    "invalid-token"; "token-expired"]
            /\ api_authorization api = error_result tag
            /\ lookup (api_properties api) "error" = VString tag
            /\ lookup (api_properties api) "scope" = VUndefined)
        \/ (exists tok tokenInfo,
               checkToken_calls t = [tok]
               /\ plugin (sample_server (resolving (sample_token "calendar" 2000))) tok
                  = Normal tokenInfo
               /\ nullish tokenInfo = false
               /\ ~ spec_expired sample_now (property tokenInfo "not_after")
               /\ api_authorization api = tokenInfo)).
Proof.
  apply (five_outcomes sample_stringify sample_now
           (sample_server (resolving (sample_token "calendar" 2000)))
           [] (bearer_request "Basic abc")).
  reflexivity.
Defined.

Lemma scope_binds_arguments_witness :
  exists bound_middleware api1 api2 t,
    scope sample_stringify sample_now
      (sample_server (resolving (sample_token "a b" 2000))) ["a"; "b"]
    = (Normal bound_middleware,
       [Log LTrace ("middleware: init with requiredScopeList "
                    ++ sample_stringify (VArray (map VString ["a"; "b"]))) []])
    /\ bound_middleware (bearer_request "Bearer abc") = (Normal api1, t)
    /\ middleware sample_stringify sample_now
         (sample_server (resolving (sample_token "a b" 2000))) []
         (bearer_request "Bearer abc") = (Normal api2, t)
    /\ isPermitted api1 [] = isPermitted api2 ["a"; "b"].
Proof.
  apply (scope_binds_arguments sample_stringify sample_now
           (sample_server (resolving (sample_token "a b" 2000))) ["a"; "b"]
           (bearer_request "Bearer abc")).
  reflexivity.
Defined.

(** ** A request that already carries [req.webauthz] *)

(** Once the middleware has completed on a request, the property cannot
    be defined again. *)
Lemma can_define_decorated (req : Request) : can_define (decorated req) = false.
Proof. reflexivity. Qed.

(** A fresh request from Express can always be decorated. *)
Example can_define_fresh (authorizationHeader : string) :
  can_define (bearer_request authorizationHeader) = true
  /\ can_define anonymous_request = true.
Proof. split; reflexivity. Qed.

(** The plugin resolving to an error object of its own is both an error
    result and the plugin's token info. *)
Example outcomes_can_coincide :
  fst (authorize sample_now (sample_server (resolving (error_result "token-expired")))
         (VString "Bearer abc"))
  = error_result "token-expired"
  /\ plugin (sample_server (resolving (error_result "token-expired"))) "abc"
     = Normal (error_result "token-expired").
Proof. split; reflexivity. Qed.
